(** * eutils [QueryService]: cached and throttled querying of NCBI E-utilities

    A shallow embedding of [src/eutils/_internal/queryservice.py] and the
    properties of its request executor [QueryService._query]: the cache key,
    the cache short-circuit, the throttle, the classification of replies and
    the write to the cache.

    Conventions of the embedding.
    - The text of a Python [str] and a Python [bytes] are both a [string]
      (a sequence of bytes; text is its UTF-8 encoding, so
      [r.text.encode("utf-8")] is the identity).
    - The strings of the query arguments are objects: they have an identity
      besides their characters, which [pickle] looks at.
    - A Python [dict] is the list of its items in insertion order, with
      distinct keys.
    - [time.monotonic()] returns a float; clock readings and intervals are
      rationals here (every double is one), [1.0 / n] is the double nearest
      to [1/n], and the float subtraction is taken to be exact.
    - A raised exception is a value of [exn]; a call either returns a value
      or raises, threading the client, the clock and the log of effects.
    - [logging] calls have no part in the result and are left out. *)

From Stdlib Require Import String Ascii List ZArith QArith Lqa Bool Permutation Sorted.
From Stdlib Require Import DecimalString OrderedTypeEx.
From stdpp Require Import base option gmap strings.

Set Warnings "-register-all".

Local Open Scope string_scope.
Local Open Scope list_scope.

(** ** Python values, dictionaries and [sorted] *)

(** A Python [str] object: its characters and its identity, the address
    [id(s)]. Two objects can have the same characters. Comparisons, the
    keys of a dict and [in] look at the characters only. *)
Record pystr : Type := Str {
  chars : string;
  oid : N
}.

(** The query arguments of the module are strings and integers
    ([{"db": "gene", "id": 7157}], [{"retmode": "xml", "restart": 0}]). *)
Inductive pyval : Type :=
| PyStr (s : pystr)
| PyInt (n : Z).

(** [a == b] on values. *)
Definition pyval_eqb (a b : pyval) : bool :=
  match a, b with
  | PyStr s, PyStr t => String.eqb (chars s) (chars t)
  | PyInt n, PyInt m => Z.eqb n m
  | _, _ => false
  end.

Definition item : Type := pystr * pyval.

(** The characters of the key of an item. *)
Definition key_of (x : item) : string := chars (fst x).

(** A [dict]: its items in insertion order. *)
Definition dict : Type := list item.

Definition items (d : dict) : list item := d.

(** [d[k] = v]: an existing key keeps its place and its key object and
    takes the new value, a new key goes to the end. *)
Fixpoint dict_setitem (k : pystr) (v : pyval) (d : dict) : dict :=
  match d with
  | [] => [(k, v)]
  | (k', v') :: d' =>
      if String.eqb (chars k') (chars k) then (k', v) :: d'
      else (k', v') :: dict_setitem k v d'
  end.

(** [dict(l)] for a list of pairs [l]. *)
Definition dict_of_items (l : list item) : dict :=
  fold_left (fun d kv => dict_setitem (fst kv) (snd kv) d) l [].

(** [d.get(k)] *)
Fixpoint dict_get (k : string) (d : dict) : option pyval :=
  match d with
  | [] => None
  | (k', v) :: d' => if String.eqb (chars k') k then Some v else dict_get k d'
  end.

Fixpoint mem_key (k : string) (d : dict) : bool :=
  match d with
  | [] => false
  | (k', _) :: d' => String.eqb (chars k') k || mem_key k d'
  end.

(** The keys of a dict are pairwise distinct. *)
Fixpoint dict_wf (d : dict) : bool :=
  match d with
  | [] => true
  | (k, _) :: d' => negb (mem_key (chars k) d') && dict_wf d'
  end.

(** [d1 == d2]: same length, and every item of [d1] is found in [d2]; the
    insertion order and the identity of the strings play no part. *)
Definition dict_eq (d1 d2 : dict) : bool :=
  Nat.eqb (length d1) (length d2) &&
  forallb (fun kv => match dict_get (key_of kv) d2 with
                     | Some v => pyval_eqb v (snd kv)
                     | None => false
                     end) d1.

(** [<] on values of one type. Between a [str] and an [int] Python 3
    raises [TypeError]; [sorted] below compares the values of two items only
    when their keys are equal, which the items of a dict never are
    ([item_ltb_keys]). *)
Definition pyval_ltb (a b : pyval) : bool :=
  match a, b with
  | PyStr s, PyStr t => String.ltb (chars s) (chars t)
  | PyInt n, PyInt m => Z.ltb n m
  | _, _ => false
  end.

(** [<] on the tuples [(k, v)]: the first components decide unless they
    are equal. *)
Definition item_ltb (x y : item) : bool :=
  if String.eqb (key_of x) (key_of y) then pyval_ltb (snd x) (snd y)
  else String.ltb (key_of x) (key_of y).

(** [sorted(l)]: a stable sort that uses [<] only. *)
Fixpoint insort (x : item) (l : list item) : list item :=
  match l with
  | [] => [x]
  | y :: l' => if item_ltb x y then x :: y :: l' else y :: insort x l'
  end.

Definition sorted (l : list item) : list item :=
  fold_left (fun acc x => insort x acc) l [].

(** ** What [pickle] sees *)

(** [pickle.dumps] keeps a memo of the objects it has written, by identity:
    a string is written in full the first time it is met and as a
    reference to the memo when the same object is met again; an integer is
    written in full every time. The pickle of [(url, sorted_items)] is
    thus made of the characters of the strings and of which of them are
    one object: [New s] is a string met for the first time, [Again n] the
    object that was the [n]-th string written, counted from 0 with the URL
    first. The tuples and the list are made by [items] and [sorted] for
    this call and are met once. *)
Inductive seen_str : Type :=
| New (s : string)
| Again (n : nat).

Inductive seen_val : Type :=
| SeenStr (t : seen_str)
| SeenInt (n : Z).

(** The memo: the addresses of the strings written so far, oldest first;
    [None] for a string made during the call, which is no object of the
    dictionaries. *)
Definition memo : Type := list (option N).

Fixpoint memo_index (i : N) (m : memo) : option nat :=
  match m with
  | [] => None
  | o :: m' =>
      match o with
      | Some j => if N.eqb j i then Some O else option_map S (memo_index i m')
      | None => option_map S (memo_index i m')
      end
  end.

Definition see_str (m : memo) (s : pystr) : seen_str * memo :=
  match memo_index (oid s) m with
  | Some n => (Again n, m)
  | None => (New (chars s), m ++ [Some (oid s)])
  end.

Definition see_val (m : memo) (v : pyval) : seen_val * memo :=
  match v with
  | PyStr s => let (t, m') := see_str m s in (SeenStr t, m')
  | PyInt n => (SeenInt n, m)
  end.

Fixpoint see_items (m : memo) (l : list item) : list (seen_str * seen_val) :=
  match l with
  | [] => []
  | (k, v) :: l' =>
      let (tk, m1) := see_str m k in
      let (tv, m2) := see_val m1 v in
      (tk, tv) :: see_items m2 l'
  end.

(** What [pickle.dumps((url, l))] sees. The URL is written first; it is
    the string the concatenation of line 262 makes, a new object for the
    non-empty paths of the endpoints. *)
Definition pickle_view (url : string) (l : list item)
  : string * list (seen_str * seen_val) :=
  (url, see_items [None] l).

(** The object of a string constant such as ["db"] or ["xml"]: CPython
    interns these, so that the constants with the same characters are one
    object. Its address is a number made from the characters. *)
Fixpoint string_code (s : string) : N :=
  match s with
  | EmptyString => 1
  | String c s' => N_of_ascii c + 256 * string_code s'
  end.

Definition lit (s : string) : pystr := {| chars := s; oid := string_code s |}.

(** [sub in s] on strings. *)
Fixpoint str_in (sub s : string) : bool :=
  String.prefix sub s ||
  match s with
  | EmptyString => false
  | String _ s' => str_in sub s'
  end.

(** [str(n)] for an [int]. *)
Definition str_int (n : Z) : string := NilZero.string_of_int (Z.to_int n).

(** [str.lower()] on the ASCII letters. *)
Definition ascii_lower (c : ascii) : ascii :=
  let n := N_of_ascii c in
  if ((65 <=? n) && (n <=? 90))%N then ascii_of_N (n + 32) else c.

Fixpoint lower (s : string) : string :=
  match s with
  | EmptyString => EmptyString
  | String c s' => String (ascii_lower c) (lower s')
  end.

(** ** Exceptions *)

(** Modelled from the spec: the module [exceptions] of the package, which
    declares [EutilsRequestError] and [EutilsNCBIError], is not among the
    sources. The specification has them as kinds of one taxonomy of
    per-call errors, raised as exceptions of a hierarchy of classes; they
    are ordinary exception classes, subclasses of [Exception] like the
    other classes here, so that a clause [except Exception] catches each of
    them. [LibraryError cls msg] stands for any other exception a library
    raises (a JSON decoding error, a connection error of the transport). *)
Inductive exn : Type :=
| EutilsRequestError (msg : string)
| EutilsNCBIError (msg : string)
| XMLSyntaxError (msg : string)
| AttributeError (msg : string)
| KeyError (key : string)
| LibraryError (cls msg : string).

(** [str(ex)], what ["{}".format(ex)] prints. *)
Definition str_exn (e : exn) : string :=
  match e with
  | EutilsRequestError msg => msg
  | EutilsNCBIError msg => msg
  | XMLSyntaxError msg => msg
  | AttributeError msg => msg
  | KeyError key => "'" +:+ key +:+ "'"
  | LibraryError _ msg => msg
  end.

(** The error kinds of the specification, and the kind each exception
    class of the module stands for: [EutilsRequestError] is raised "when
    NCBI replies, but the request failed", [EutilsNCBIError] when the reply
    cannot be read. *)
Inductive ErrorKind : Type :=
| RequestRejected
| AccessDenied
| MalformedResponse
| Uncaught.

Definition kind_of (e : exn) : ErrorKind :=
  match e with
  | EutilsRequestError _ => RequestRejected
  | EutilsNCBIError _ => MalformedResponse
  | _ => Uncaught
  end.

(** ** Parsed markup (lxml) *)

(** An element of a parsed document: its tag, its attributes, the text
    before its first child ([None] when there is none) and its child
    elements. *)
Inductive Element : Type :=
| Elem (tag : string) (attrib : list (string * string)) (text : option string)
       (children : list Element).

Definition el_tag (e : Element) : string := let (t, _, _, _) := e in t.
Definition el_attrib (e : Element) : list (string * string) := let (_, a, _, _) := e in a.
Definition el_text (e : Element) : option string := let (_, _, t, _) := e in t.
Definition el_children (e : Element) : list Element := let (_, _, _, c) := e in c.

(** [e.find(tag)]: the first child of [e] with that tag, or [None]. *)
Definition find (tag : string) (e : Element) : option Element :=
  List.find (fun c => String.eqb (el_tag c) tag) (el_children e).

(** The truth value of an element: lxml's [__bool__] tells whether the
    element has children. *)
Definition element_bool (e : Element) : bool :=
  match el_children e with
  | [] => false
  | _ :: _ => true
  end.

(** The truth value of [e.find(tag)], an element or [None]. *)
Definition truthy_element (o : option Element) : bool :=
  match o with
  | None => false
  | Some e => element_bool e
  end.

Definition attrib_is (name value : string) (a : list (string * string)) : bool :=
  existsb (fun kv => String.eqb (fst kv) name && String.eqb (snd kv) value) a.

(** [e.xpath("//meta/@content='no-cache'")]: some [meta] element of the
    document has the attribute [content] with the value [no-cache]. *)
Fixpoint xpath_meta_no_cache (e : Element) : bool :=
  match e with
  | Elem tag attrib _ children =>
      (String.eqb tag "meta" && attrib_is "content" "no-cache" attrib)
      || existsb xpath_meta_no_cache children
  end.

(** ["{error}".format(error=v)] for [v] a string or [None]. *)
Definition format_opt (v : option string) : string :=
  match v with
  | Some s => s
  | None => "None"
  end.

(** ** Replies of the transport (requests) *)

Record Response : Type := mkResponse {
  ok : bool;
  status_code : Z;
  reason : string;
  headers : list (string * string);
  text : string;
  content : string
}.

(** [r.headers[name]]: the headers of a reply are looked up without regard
    to case; a missing header raises [KeyError]. *)
Fixpoint headers_getitem (name : string) (h : list (string * string)) : exn + string :=
  match h with
  | [] => inl (KeyError (lower name))
  | (k, v) :: h' =>
      if String.eqb (lower k) (lower name) then inr v else headers_getitem name h'
  end.

(** What [requests.post] does: it returns a reply or raises, after some
    time. *)
Inductive PostResult : Type :=
| Replied (r : Response)
| PostRaised (e : exn).

Record Answer : Type := mkAnswer {
  result : PostResult;
  elapsed : Q
}.

(** The remote service: its answer to a request for a URL with form
    fields, sent at a clock reading. *)
Definition Remote : Type := string -> dict -> Q -> Answer.

(** ** Libraries *)

(** The library functions the module calls and whose code is not part of
    the package. *)
Class Libs : Type := mkLibs {
  (** [lxml.etree.fromstring], on the bytes of a body *)
  etree_fromstring : string -> exn + Element;
  (** [lxml.etree.XML], on the text of a body *)
  etree_XML : string -> exn + Element;
  (** ["{error}".format(error=r.json()["error"])]: the member [error] of a
      JSON body, or what the decoder or the lookup raises *)
  json_error : Response -> exn + string;
  (** [pickle.dumps] on a pair of a URL and a list of items, as a function
      of what it sees of them *)
  pickle_dumps : string * list (seen_str * seen_val) -> string;
  (** [hashlib.md5(b).hexdigest()] *)
  md5_hexdigest : string -> string;
  (** [os.path.expanduser("~")] *)
  home : string
}.

(** ** The client *)

(** The content of a persistent store: payloads under keys. *)
Abbreviation SQLiteCache := (gmap string string).

(** Modelled from the spec: the class [SQLiteCache] of the module
    [sqlitecache], the persistent store of the cache, is not among the
    sources. It is the key-value store of the specification: [get] returns
    the payload stored under a key or reports that there is none (the
    [KeyError] of [self._cache[key]]), [put] stores a payload under a key
    ([self._cache[key] = value]); a store object is true as a condition
    whatever it holds. *)
Definition store_get (c : SQLiteCache) (key : string) : option string := c !! key.

Definition store_put (c : SQLiteCache) (key value : string) : SQLiteCache :=
  <[key := value]> c.

Record QueryService : Type := mkQueryService {
  default_args : dict;
  email : pystr;
  tool : pystr;
  api_key : option string;
  request_interval : Q;
  _last_request_clock : Q;
  _ident_args : dict;
  _request_count : Z;
  _cache : option SQLiteCache
}.

Definition set_last_request_clock (t : Q) (s : QueryService) : QueryService :=
  {| default_args := default_args s; email := email s; tool := tool s;
     api_key := api_key s; request_interval := request_interval s;
     _last_request_clock := t;
     _ident_args := _ident_args s; _request_count := _request_count s;
     _cache := _cache s |}.

Definition set_cache (c : option SQLiteCache) (s : QueryService) : QueryService :=
  {| default_args := default_args s; email := email s; tool := tool s;
     api_key := api_key s; request_interval := request_interval s;
     _last_request_clock := _last_request_clock s;
     _ident_args := _ident_args s; _request_count := _request_count s;
     _cache := c |}.

Definition url_base : string := "https://eutils.ncbi.nlm.nih.gov/entrez/eutils".

Definition default_default_args : dict :=
  [(lit "retmode", PyStr (lit "xml")); (lit "usehistory", PyStr (lit "y"));
   (lit "restart", PyInt 0); (lit "retmax", PyInt 10000)].

Definition default_tool : pystr := lit "eutils._internal".

Definition default_email : pystr := lit "biocommons-dev@googlegroups.com".

(** The argument [cache] of the constructor: [True], [False] or a path. *)
Inductive cache_arg : Type :=
| CacheBool (b : bool)
| CachePath (p : string).

(** The truth value of a string or [None]. *)
Definition truthy_str (o : option string) : bool :=
  match o with
  | None => false
  | Some s => negb (String.eqb s "")
  end.

(** [1.0 / n] for an integer [n >= 1]: the double nearest to [1/n], ties
    to even. With [2^(e-1) < n <= 2^e] the quotient is in
    [[2^-e, 2^-(e-1))] and its 53-bit significand is [2^(52+e) / n]
    rounded; the result is given in lowest terms, as
    [float.as_integer_ratio] does. *)
Definition double_inverse (n : Z) : Q :=
  let k := (52 + Z.log2_up n)%Z in
  let q := (2 ^ k / n)%Z in
  let r := (2 ^ k mod n)%Z in
  let significand :=
    if (2 * r <? n)%Z then q
    else if (n <? 2 * r)%Z then (q + 1)%Z
    else if Z.even q then q else (q + 1)%Z in
  Qred (Qmake significand (Z.to_pos (2 ^ k))).

(** [1.0 / requests_per_second] *)
Definition interval_of (requests_per_second : Z) : Q :=
  double_inverse requests_per_second.

(** ** Effects *)

(** The effects of a call that the properties speak of: a sleep, a request
    sent to the remote service with what came back, a write to the cache. *)
Inductive Event : Type :=
| EvSleep (d : Q)
| EvPost (url : string) (data : dict) (answer : PostResult)
| EvCachePut (key value : string).

(** The client together with its surroundings: the monotonic clock, the
    remote service and the effects so far, oldest first. *)
Record Machine : Type := mkMachine {
  this : QueryService;
  clock : Q;
  remote : Remote;
  log : list Event
}.

(** A computation: from a machine to a value or a raised exception, and
    the machine after. *)
Definition M (A : Type) : Type := Machine -> (exn + A) * Machine.

Definition ret {A} (a : A) : M A := fun m => (inr a, m).

Definition raise {A} (e : exn) : M A := fun m => (inl e, m).

Definition bind {A B} (c : M A) (k : A -> M B) : M B :=
  fun m =>
    match c m with
    | (inl e, m') => (inl e, m')
    | (inr a, m') => k a m'
    end.

(** [try: c  except Exception as ex: h ex] *)
Definition try_except {A} (c : M A) (h : exn -> M A) : M A :=
  fun m =>
    match c m with
    | (inl e, m') => h e m'
    | (inr a, m') => (inr a, m')
    end.

(** A library call that returns or raises. *)
Definition lift {A} (r : exn + A) : M A :=
  match r with
  | inl e => raise e
  | inr a => ret a
  end.

(** Code without effects on the machine: a value or a raised exception. *)
Definition rbind {A B} (c : exn + A) (k : A -> exn + B) : exn + B :=
  match c with
  | inl e => inl e
  | inr a => k a
  end.

(** [try: c  except Exception as ex: h ex] *)
Definition rtry {A} (c : exn + A) (h : exn -> exn + A) : exn + A :=
  match c with
  | inl e => h e
  | inr a => inr a
  end.

Declare Scope res_scope.
Delimit Scope res_scope with res.
Notation "x <- c ;; k" := (rbind c (fun x => k))
  (at level 100, c at next level, right associativity) : res_scope.
Notation "c ;; k" := (rbind c (fun _ => k))
  (at level 100, right associativity) : res_scope.

Declare Scope py_scope.
Delimit Scope py_scope with py.
Notation "x <- c ;; k" := (bind c (fun x => k))
  (at level 100, c at next level, right associativity) : py_scope.
Notation "c ;; k" := (bind c (fun _ => k))
  (at level 100, right associativity) : py_scope.

Definition get_self : M QueryService := fun m => (inr (this m), m).

Definition put_self (s : QueryService) : M unit :=
  fun m => (inr tt, {| this := s; clock := clock m; remote := remote m; log := log m |}).

Definition emit (e : Event) : M unit :=
  fun m => (inr tt, {| this := this m; clock := clock m; remote := remote m;
                       log := log m ++ [e] |}).

Definition advance (d : Q) : M unit :=
  fun m => (inr tt, {| this := this m; clock := (clock m + d)%Q; remote := remote m;
                       log := log m |}).

(** [time.monotonic()] *)
Definition time_monotonic : M Q := fun m => (inr (clock m), m).

(** [time.sleep(d)] *)
Definition time_sleep (d : Q) : M unit :=
  (emit (EvSleep d) ;; advance d)%py.

(** [requests.post(url, data)] *)
Definition requests_post (url : string) (data : dict) : M Response :=
  (now <- time_monotonic ;;
   ans <- (fun m => (inr (remote m url data now), m)) ;;
   advance (elapsed ans) ;;
   emit (EvPost url data (result ans)) ;;
   match result ans with
   | Replied r => ret r
   | PostRaised e => raise e
   end)%py.

(** [self._cache[key]] *)
Definition cache_getitem (key : string) : M string :=
  (self <- get_self ;;
   match _cache self with
   | Some c =>
       match store_get c key with
       | Some v => ret v
       | None => raise (KeyError key)
       end
   | None => raise (LibraryError "TypeError" "'NoneType' object is not subscriptable")
   end)%py.

(** [self._cache[key] = value] *)
Definition cache_setitem (key value : string) : M unit :=
  (self <- get_self ;;
   match _cache self with
   | Some c =>
       emit (EvCachePut key value) ;;
       put_self (set_cache (Some (store_put c key value)) self)
   | None => raise (LibraryError "TypeError" "'NoneType' object does not support item assignment")
   end)%py.

Definition Qltb (x y : Q) : bool := negb (Qle_bool y x).

(** The marker of an access-denied page,
    [<h1 class="error">Access Denied</h1>]. *)
Definition dquote : string := String (ascii_of_N 34) EmptyString.

Definition access_denied_marker : string :=
  "<h1 class=" +:+ dquote +:+ "error" +:+ dquote +:+ ">Access Denied</h1>".

Definition bad_words : list string := ["<error>"; "<ERROR>"].

Section QueryService.

Context {L : Libs}.

(** [os.path.join(os.path.expanduser("~"), ".cache", "eutils-cache.db")] *)
Definition default_cache_path : string := home +:+ "/.cache/eutils-cache.db".

(** [QueryService.__init__]. [disk path] is what [SQLiteCache(path)] gives:
    the store kept at that path, or the error of opening it. The argument
    [request_interval] is no longer supported and is ignored. *)
Definition __init__ (disk : string -> exn + SQLiteCache)
    (email : pystr) (cache : cache_arg) (default_args : dict)
    (request_interval : option Q) (tool : pystr) (api_key : option string)
  : exn + QueryService :=
  let requests_per_second :=
    match api_key with
    | None => 3%Z
    | Some _ => 10%Z
    end in
  let cache_path :=
    match cache with
    | CacheBool true => Some default_cache_path
    | CacheBool false => None
    | CachePath p => if truthy_str (Some p) then Some p else None
    end in
  let make c :=
    {| default_args := default_args; email := email; tool := tool;
       api_key := api_key;
       request_interval := interval_of requests_per_second;
       _last_request_clock := 0%Q;
       _ident_args := [(lit "tool", PyStr tool); (lit "email", PyStr email)];
       _request_count := 0%Z;
       _cache := c |} in
  match cache_path with
  | Some p =>
      match disk p with
      | inl e => inl e
      | inr c => inr (make (Some c))
      end
  | None => inr (make None)
  end.

(** Lines 262-267: the URL, the defining arguments, the transmitted
    arguments and the cache key of a call. *)
Definition defining_args_of (self : QueryService) (args : dict) : dict :=
  dict_of_items (items (default_args self) ++ items args).

Definition full_args_of (self : QueryService) (args : dict) : dict :=
  dict_of_items (items (_ident_args self) ++ items (defining_args_of self args)).

Definition cache_key_of (url : string) (defining_args : dict) : string :=
  md5_hexdigest (pickle_dumps (pickle_view url (sorted (items defining_args)))).

(** The URL the request goes to (lines 288-289). *)
Definition request_url (self : QueryService) (url : string) : string :=
  if truthy_str (api_key self)
  then url +:+ "?api_key=" +:+ format_opt (api_key self)
  else url.

(** The truth value of [self._cache], a store or [None]. *)
Definition truthy_cache (c : option SQLiteCache) : bool :=
  match c with
  | Some _ => true
  | None => false
  end.

(** The inner function [_cacheable]: [False] if [r] should not be cached
    (it has a no-cache meta line), [True] otherwise. *)
Definition _cacheable (r : string) : exn + bool :=
  (if str_in "no-cache" r
   then xml <- etree_XML r ;; inr (negb (xpath_meta_no_cache xml))
   else inr true)%res.

Definition request_error_message (r : Response) (error : string) : string :=
  reason r +:+ " (" +:+ str_int (status_code r) +:+ "): " +:+ error.

Definition parse_error_message (ex : exn) : string :=
  "Error parsing response object from NCBI: " +:+ str_exn ex.

(** Lines 273-286: the read of the cache. *)
Definition cache_read (cache_key : string) (skip_cache : bool) : M (option string) :=
  (self <- get_self ;;
   if negb skip_cache && truthy_cache (_cache self)
   then try_except (v <- cache_getitem cache_key ;; ret (Some v))
          (fun ex => match ex with
                     | KeyError _ => ret None
                     | _ => raise ex
                     end)
   else ret None)%py.

(** Lines 293-298: the throttle. *)
Definition throttle (skip_sleep : bool) : M unit :=
  (if negb skip_sleep
   then
     self <- get_self ;;
     let req_int := request_interval self in
     now <- time_monotonic ;;
     let sleep_time := (req_int - (now - _last_request_clock self))%Q in
     if Qltb 0%Q sleep_time then time_sleep sleep_time else ret tt
   else ret tt)%py.

(** Lines 308-319: a reply with a failing status. *)
Definition check_status (r : Response) : exn + unit :=
  (if negb (ok r)
   then
     ct <- headers_getitem "Content-Type" (headers r) ;;
     (if String.eqb ct "application/json"
      then
        error <- json_error r ;;
        inl (EutilsRequestError (request_error_message r error))
      else inr tt) ;;
     rtry
       (xml <- etree_fromstring (text r) ;;
        let errornode := find "ERROR" xml in
        let errormsg :=
          match errornode with
          | Some e => if element_bool e then el_text e else Some "Unknown Error"
          | None => Some "Unknown Error"
          end in
        inl (EutilsRequestError (request_error_message r (format_opt errormsg))))
       (fun ex => inl (EutilsNCBIError (parse_error_message ex)))
   else inr tt)%res.

(** Lines 321-327: an error marker in the body of a reply with a success
    status. [r.text] is never [None]. *)
Definition check_bad_words (r : Response) : exn + unit :=
  (if existsb (fun bad_word => str_in bad_word (text r)) bad_words
   then
     rtry
       (xml <- etree_fromstring (text r) ;;
        errornode <- match find "ERROR" xml with
                     | Some e => inr e
                     | None => inl (AttributeError
                                 "'NoneType' object has no attribute 'text'")
                     end ;;
        inl (EutilsRequestError
               (request_error_message r (format_opt (el_text errornode)))))
       (fun ex => inl (EutilsNCBIError (parse_error_message ex)))
   else inr tt)%res.

(** Lines 329-330: the access-denied page. *)
Definition check_access_denied (r : Response) (url : string) : exn + unit :=
  if str_in access_denied_marker (text r)
  then inl (EutilsRequestError ("Access Denied: " +:+ url))
  else inr tt.

(** Lines 308-330 in sequence: the classification of a reply; [inr tt] is
    success. *)
Definition classify (r : Response) (url : string) : exn + unit :=
  (check_status r ;; check_bad_words r ;; check_access_denied r url)%res.

(** Lines 332-338: the write to the cache. *)
Definition cache_write (cache_key : string) (r : Response) : M unit :=
  (self <- get_self ;;
   cacheable <- (if truthy_cache (_cache self) then lift (_cacheable (text r))
                 else ret false) ;;
   if cacheable then cache_setitem cache_key (content r) else ret tt)%py.

(** The cache key of a call of [_query]. *)
Definition query_cache_key (self : QueryService) (path : string) (args : option dict)
  : string :=
  let args := match args with None => [] | Some a => a end in
  cache_key_of (url_base +:+ path) (defining_args_of self args).

(** [QueryService._query]: return results for a NCBI query, possibly from
    the cache. *)
Definition _query (path : string) (args : option dict)
    (skip_cache skip_sleep : bool) : M string :=
  (let args := match args with None => [] | Some a => a end in
   self <- get_self ;;
   let url := url_base +:+ path in
   let defining_args := defining_args_of self args in
   let full_args := full_args_of self args in
   let cache_key := cache_key_of url defining_args in
   hit <- cache_read cache_key skip_cache ;;
   match hit with
   | Some v => ret v
   | None =>
       let url := request_url self url in
       throttle skip_sleep ;;
       r <- requests_post url full_args ;;
       now <- time_monotonic ;;
       self <- get_self ;;
       put_self (set_last_request_clock now self) ;;
       lift (classify r url) ;;
       cache_write cache_key r ;;
       ret (content r)
   end)%py.

(** The query modes. *)
Definition efetch (args : dict) : M string := _query "/efetch.fcgi" (Some args) false false.

Definition einfo (args : option dict) : M string :=
  let args := match args with None => [] | Some a => a end in
  _query "/einfo.fcgi" (Some args) true false.

Definition esearch (args : dict) : M string := _query "/esearch.fcgi" (Some args) false false.

Definition elink (args : dict) : M string := _query "/elink.fcgi" (Some args) false false.

Definition esummary (args : dict) : M string := _query "/esummary.fcgi" (Some args) false false.

End QueryService.

(** ** An instance of the libraries, for running the client *)

(** A reader of the element fragment of XML: one root element, elements
    with attributes in double quotes, text and nested elements; no
    declarations, comments or entity references. Inside the fragment it
    builds the tree lxml builds. *)
Module MiniXML.

Definition is_ws (c : ascii) : bool :=
  let n := N_of_ascii c in
  ((n =? 32) || (n =? 9) || (n =? 10) || (n =? 13))%N.

Definition is_name_char (c : ascii) : bool :=
  let n := N_of_ascii c in
  (((65 <=? n) && (n <=? 90)) || ((97 <=? n) && (n <=? 122)) ||
   ((48 <=? n) && (n <=? 57)) || (n =? 45) || (n =? 95) || (n =? 46) || (n =? 58))%N.

Definition is_text_char (c : ascii) : bool :=
  let n := N_of_ascii c in
  negb ((n =? 60) || (n =? 38))%N.

Definition is_value_char (c : ascii) : bool :=
  let n := N_of_ascii c in
  negb ((n =? 60) || (n =? 38) || (n =? 34))%N.

(** The longest prefix of characters that satisfy [p], and the rest. *)
Fixpoint span (p : ascii -> bool) (s : string) : string * string :=
  match s with
  | EmptyString => (EmptyString, EmptyString)
  | String c s' =>
      if p c then let (a, b) := span p s' in (String c a, b)
      else (EmptyString, s)
  end.

Definition skip_ws (s : string) : string := snd (span is_ws s).

Definition opt_text (s : string) : option string :=
  match s with
  | EmptyString => None
  | _ => Some s
  end.

(** The attributes of a start tag and its end: [/>] (true) or [>]. *)
Fixpoint attributes (fuel : nat) (s : string)
  : option (list (string * string) * bool * string) :=
  match fuel with
  | O => None
  | S fuel' =>
      let (ws, s1) := span is_ws s in
      match s1 with
      | String ">" s2 => Some ([], false, s2)
      | String "/" (String ">" s2) => Some ([], true, s2)
      | _ =>
          match ws, span is_name_char s1 with
          | EmptyString, _ => None
          | _, (EmptyString, _) => None
          | _, (name, s2) =>
              match skip_ws s2 with
              | String "=" s3 =>
                  match skip_ws s3 with
                  | String q s4 =>
                      if (N_of_ascii q =? 34)%N then
                        let (value, s5) := span is_value_char s4 in
                        match s5 with
                        | String q' s6 =>
                            if (N_of_ascii q' =? 34)%N then
                              match attributes fuel' s6 with
                              | Some (rest, closed, s7) => Some ((name, value) :: rest, closed, s7)
                              | None => None
                              end
                            else None
                        | EmptyString => None
                        end
                      else None
                  | EmptyString => None
                  end
              | _ => None
              end
          end
      end
  end.

(** A start tag, after its [<]. *)
Definition start_tag (s : string) : option (string * list (string * string) * bool * string) :=
  match span is_name_char s with
  | (EmptyString, _) => None
  | (name, s1) =>
      match attributes (S (String.length s1)) s1 with
      | Some (attrs, closed, s2) => Some (name, attrs, closed, s2)
      | None => None
      end
  end.

(** An end tag, after its [</]. *)
Definition end_tag (name : string) (s : string) : option string :=
  let (name', s1) := span is_name_char s in
  if String.eqb name' name then
    match skip_ws s1 with
    | String ">" s2 => Some s2
    | _ => None
    end
  else None.

(** The content of an element up to its end tag: the text before the
    first child, the children, and what follows the [</]. *)
Fixpoint element_content (fuel : nat) (s : string)
  : option (option string * list Element * string) :=
  match fuel with
  | O => None
  | S fuel' =>
      let (txt, s1) := span is_text_char s in
      match s1 with
      | String "<" (String "/" s2) => Some (opt_text txt, [], s2)
      | String "<" s2 =>
          match start_tag s2 with
          | Some (name, attrs, true, s3) =>
              match element_content fuel' s3 with
              | Some (_, siblings, s4) =>
                  Some (opt_text txt, Elem name attrs None [] :: siblings, s4)
              | None => None
              end
          | Some (name, attrs, false, s3) =>
              match element_content fuel' s3 with
              | Some (t, cs, s4) =>
                  match end_tag name s4 with
                  | Some s5 =>
                      match element_content fuel' s5 with
                      | Some (_, siblings, s6) =>
                          Some (opt_text txt, Elem name attrs t cs :: siblings, s6)
                      | None => None
                      end
                  | None => None
                  end
              | None => None
              end
          | None => None
          end
      | _ => None
      end
  end.

Definition not_well_formed : exn := XMLSyntaxError "not well-formed".

Definition parse (s : string) : exn + Element :=
  match skip_ws s with
  | EmptyString => inl (XMLSyntaxError "Document is empty, line 1, column 1")
  | String "<" s1 =>
      match start_tag s1 with
      | Some (name, attrs, true, s2) =>
          match skip_ws s2 with
          | EmptyString => inr (Elem name attrs None [])
          | _ => inl not_well_formed
          end
      | Some (name, attrs, false, s2) =>
          match element_content (S (String.length s2)) s2 with
          | Some (t, cs, s3) =>
              match end_tag name s3 with
              | Some s4 =>
                  match skip_ws s4 with
                  | EmptyString => inr (Elem name attrs t cs)
                  | _ => inl not_well_formed
                  end
              | None => inl not_well_formed
              end
          | None => inl not_well_formed
          end
      | None => inl not_well_formed
      end
  | _ => inl (XMLSyntaxError "Start tag expected, '<' not found, line 1, column 1")
  end.

End MiniXML.


(** Stand-ins for [pickle.dumps] and the MD5 digest, and a reader of the
    JSON bodies of the shape [{"error": "..."}]. The properties below hold
    for every choice of these functions; the stand-ins serve to run the
    client on examples. The stand-in of [pickle.dumps] writes what is seen
    in one line, the stand-in of the digest wraps it. *)
Module StandIn.

Definition repr_str (t : seen_str) : string :=
  match t with
  | New s => "'" +:+ s +:+ "'"
  | Again n => "@" +:+ str_int (Z.of_nat n)
  end.

Definition repr (v : seen_val) : string :=
  match v with
  | SeenStr t => repr_str t
  | SeenInt n => str_int n
  end.

(** Like [pickle.dumps], a string met again is written as a reference. *)
Definition dumps (x : string * list (seen_str * seen_val)) : string :=
  fst x +:+ fold_right (fun kv acc => ";" +:+ repr_str (fst kv) +:+ "="
                                      +:+ repr (snd kv) +:+ acc)
              "" (snd x).

Definition hexdigest (b : string) : string := "digest(" +:+ b +:+ ")".

Definition not_dquote (c : ascii) : bool := negb (N_of_ascii c =? 34)%N.

Definition json_error (r : Response) : exn + string :=
  let opening := "{" +:+ dquote +:+ "error" +:+ dquote +:+ ": " +:+ dquote in
  let n := String.length opening in
  if String.prefix opening (text r) then
    let (msg, rest) :=
      MiniXML.span not_dquote (String.substring n (String.length (text r) - n) (text r)) in
    if String.eqb rest (dquote +:+ "}") then inr msg
    else inl (LibraryError "JSONDecodeError" "Expecting value")
  else inl (LibraryError "JSONDecodeError" "Expecting value").

End StandIn.

Definition demo_libs : Libs :=
  {| etree_fromstring := MiniXML.parse;
     etree_XML := MiniXML.parse;
     json_error := StandIn.json_error;
     pickle_dumps := StandIn.dumps;
     md5_hexdigest := StandIn.hexdigest;
     home := "/home/user" |}.

(** A disk with no cache file yet: [SQLiteCache(path)] opens an empty
    store. *)
Definition empty_disk (path : string) : exn + SQLiteCache := inr ∅.

(** A remote service that gives the same reply to every request, after
    [d] seconds. *)
Definition always (r : Response) (d : Q) : Remote :=
  fun _ _ _ => {| result := Replied r; elapsed := d |}.

Definition xml_headers : list (string * string) := [("Content-Type", "text/xml; charset=UTF-8")].

Definition reply_ok (body : string) : Response :=
  {| ok := true; status_code := 200; reason := "OK"; headers := xml_headers;
     text := body; content := body |}.

Definition reply_bad_request (body : string) : Response :=
  {| ok := false; status_code := 400; reason := "Bad Request"; headers := xml_headers;
     text := body; content := body |}.

(** The events of a call: what the log has after it beyond what it had
    before. *)
Definition cache_puts (evs : list Event) : list (string * string) :=
  flat_map (fun ev => match ev with
                      | EvCachePut k v => [(k, v)]
                      | _ => []
                      end) evs.

Definition replies (evs : list Event) : list (string * Response) :=
  flat_map (fun ev => match ev with
                      | EvPost url _ (Replied r) => [(url, r)]
                      | _ => []
                      end) evs.

Definition posts (evs : list Event) : list (string * dict) :=
  flat_map (fun ev => match ev with
                      | EvPost url data _ => [(url, data)]
                      | _ => []
                      end) evs.

Definition sleeps (evs : list Event) : list Q :=
  flat_map (fun ev => match ev with
                      | EvSleep d => [d]
                      | _ => []
                      end) evs.

(** The events a machine [m'] has logged since it was [m]. *)
Definition events_since (m m' : Machine) : list Event :=
  skipn (length (log m)) (log m').

Section Calls.

Context {L : Libs}.

(** What a call of [_query] returns or raises, the machine after it, and
    the events of the call. *)
Definition outcome (path : string) (args : option dict) (skip_cache skip_sleep : bool)
    (m : Machine) : exn + string :=
  fst (_query path args skip_cache skip_sleep m).

Definition machine_after (path : string) (args : option dict)
    (skip_cache skip_sleep : bool) (m : Machine) : Machine :=
  snd (_query path args skip_cache skip_sleep m).

Definition call_events (path : string) (args : option dict)
    (skip_cache skip_sleep : bool) (m : Machine) : list Event :=
  events_since m (machine_after path args skip_cache skip_sleep m).

End Calls.

(** ** Notions for the proofs *)

Definition key_lt (x y : item) : Prop := String.ltb (key_of x) (key_of y) = true.

(** The item of a dict under a key. *)
Fixpoint dict_find (k : string) (d : dict) : option item :=
  match d with
  | [] => None
  | x :: d' => if String.eqb (key_of x) k then Some x else dict_find k d'
  end.

(** What the read of the cache finds. *)
Definition cache_lookup (self : QueryService) (cache_key : string) (skip_cache : bool)
  : option string :=
  if skip_cache then None
  else match _cache self with
       | Some c => store_get c cache_key
       | None => None
       end.

(** The sleep time line 295 computes. *)
Definition sleep_time_of (self : QueryService) (now : Q) : Q :=
  (request_interval self - (now - _last_request_clock self))%Q.

(** The events of the throttle. *)
Definition throttle_events (skip_sleep : bool) (m : Machine) : list Event :=
  if negb skip_sleep && Qltb 0%Q (sleep_time_of (this m) (clock m))
  then [EvSleep (sleep_time_of (this m) (clock m))]
  else [].

(** The machine after a request was sent and answered. *)
Definition answered (m : Machine) (url : string) (data : dict) : Machine :=
  let ans := remote m url data (clock m) in
  {| this := this m; clock := (clock m + elapsed ans)%Q; remote := remote m;
     log := log m ++ [EvPost url data (result ans)] |}.

(** The machine after the clock reading of the reply was recorded. *)
Definition recorded (m : Machine) : Machine :=
  {| this := set_last_request_clock (clock m) (this m); clock := clock m;
     remote := remote m; log := log m |}.

(** The machine after a payload was written to the cache [c]. *)
Definition stored (m : Machine) (c : SQLiteCache) (key value : string) : Machine :=
  {| this := set_cache (Some (store_put c key value)) (this m); clock := clock m;
     remote := remote m; log := log m ++ [EvCachePut key value] |}.

Section Runs.

Context {L : Libs}.

(** The outcome of a call, step by step. *)
Inductive Run (path : string) (args : option dict) (skip_cache skip_sleep : bool)
    (m : Machine) : exn + string -> Machine -> list Event -> Prop :=
| RunHit v :
    cache_lookup (this m) (query_cache_key (this m) path args) skip_cache = Some v ->
    Run path args skip_cache skip_sleep m (inr v) m []
| RunRaised m1 url data e :
    cache_lookup (this m) (query_cache_key (this m) path args) skip_cache = None ->
    throttle skip_sleep m = (inr tt, m1) ->
    url = request_url (this m) (url_base +:+ path) ->
    data = full_args_of (this m) (match args with None => [] | Some a => a end) ->
    result (remote m1 url data (clock m1)) = PostRaised e ->
    Run path args skip_cache skip_sleep m (inl e) (answered m1 url data)
      (throttle_events skip_sleep m ++ [EvPost url data (PostRaised e)])
| RunFailed m1 url data r e :
    cache_lookup (this m) (query_cache_key (this m) path args) skip_cache = None ->
    throttle skip_sleep m = (inr tt, m1) ->
    url = request_url (this m) (url_base +:+ path) ->
    data = full_args_of (this m) (match args with None => [] | Some a => a end) ->
    result (remote m1 url data (clock m1)) = Replied r ->
    classify r url = inl e ->
    Run path args skip_cache skip_sleep m (inl e) (recorded (answered m1 url data))
      (throttle_events skip_sleep m ++ [EvPost url data (Replied r)])
| RunUncacheable m1 url data r c e :
    cache_lookup (this m) (query_cache_key (this m) path args) skip_cache = None ->
    throttle skip_sleep m = (inr tt, m1) ->
    url = request_url (this m) (url_base +:+ path) ->
    data = full_args_of (this m) (match args with None => [] | Some a => a end) ->
    result (remote m1 url data (clock m1)) = Replied r ->
    classify r url = inr tt ->
    _cache (this m) = Some c ->
    _cacheable (text r) = inl e ->
    Run path args skip_cache skip_sleep m (inl e) (recorded (answered m1 url data))
      (throttle_events skip_sleep m ++ [EvPost url data (Replied r)])
| RunFresh m1 url data r :
    cache_lookup (this m) (query_cache_key (this m) path args) skip_cache = None ->
    throttle skip_sleep m = (inr tt, m1) ->
    url = request_url (this m) (url_base +:+ path) ->
    data = full_args_of (this m) (match args with None => [] | Some a => a end) ->
    result (remote m1 url data (clock m1)) = Replied r ->
    classify r url = inr tt ->
    (_cache (this m) = None \/ _cacheable (text r) = inr false) ->
    Run path args skip_cache skip_sleep m
      (inr (content r)) (recorded (answered m1 url data))
      (throttle_events skip_sleep m ++ [EvPost url data (Replied r)])
| RunStored m1 url data r c :
    cache_lookup (this m) (query_cache_key (this m) path args) skip_cache = None ->
    throttle skip_sleep m = (inr tt, m1) ->
    url = request_url (this m) (url_base +:+ path) ->
    data = full_args_of (this m) (match args with None => [] | Some a => a end) ->
    result (remote m1 url data (clock m1)) = Replied r ->
    classify r url = inr tt ->
    _cache (this m) = Some c ->
    _cacheable (text r) = inr true ->
    Run path args skip_cache skip_sleep m
      (inr (content r))
      (stored (recorded (answered m1 url data)) c
         (query_cache_key (this m) path args) (content r))
      (throttle_events skip_sleep m ++
       [EvPost url data (Replied r);
        EvCachePut (query_cache_key (this m) path args) (content r)]).

(** The outcome and the write to the cache that follow a reply. *)
Definition outcome_after (self : QueryService) (r : Response) (url : string)
  : exn + string :=
  match classify r url with
  | inl e => inl e
  | inr _ =>
      match _cache self with
      | None => inr (content r)
      | Some _ =>
          match _cacheable (text r) with
          | inl e => inl e
          | inr _ => inr (content r)
          end
      end
  end.

Definition puts_after (self : QueryService) (key : string) (r : Response) (url : string)
  : list (string * string) :=
  match classify r url, _cache self, _cacheable (text r) with
  | inr _, Some _, inr true => [(key, content r)]
  | _, _, _ => []
  end.

End Runs.

(** ** Inputs of the examples *)

Definition search_args : dict :=
  [(lit "db", PyStr (lit "gene")); (lit "term", PyStr (lit "VEGF"))].

Definition search_args_swapped : dict :=
  [(lit "term", PyStr (lit "VEGF")); (lit "db", PyStr (lit "gene"))].

(** A search for the term [gene] in the database [gene], written with one
    string object for the two values, and the same search with two string
    objects made at run time. *)
Definition shared_args : dict :=
  [(lit "db", PyStr (lit "gene")); (lit "term", PyStr (lit "gene"))].

Definition unshared_args : dict :=
  [(lit "term", PyStr (Str "gene" 2)); (lit "db", PyStr (Str "gene" 3))].

(** The client [QueryService(cache=...)] gives: the defaults of the module,
    no API key unless one is given. *)
Definition fresh_client (cache : option SQLiteCache) (key : option string) : QueryService :=
  {| default_args := default_default_args;
     email := default_email;
     tool := default_tool;
     api_key := key;
     request_interval := interval_of (match key with None => 3 | Some _ => 10 end);
     _last_request_clock := 0%Q;
     _ident_args := [(lit "tool", PyStr default_tool); (lit "email", PyStr default_email)];
     _request_count := 0%Z;
     _cache := cache |}.

Definition other_client : QueryService :=
  {| default_args := default_default_args;
     email := lit "someone@example.org";
     tool := lit "mytool";
     api_key := Some "0123456789abcdef";
     request_interval := interval_of 10;
     _last_request_clock := 0%Q;
     _ident_args := [(lit "tool", PyStr (lit "mytool"));
                     (lit "email", PyStr (lit "someone@example.org"))];
     _request_count := 0%Z;
     _cache := None |}.

Definition rejected_body : string :=
  "<eSearchResult><ERROR>bad database</ERROR></eSearchResult>".

Definition result_body : string :=
  "<eSearchResult><Count>1</Count><IdList><Id>7422</Id></IdList></eSearchResult>".

Definition denied_body : string :=
  "<html><body>" +:+ access_denied_marker +:+ "</body></html>".

Definition plain_body : string := "upstream said no-cache".

(** A machine: a client at a clock reading, facing a remote service that
    answers every request with [r] after a quarter of a second. *)
Definition machine (self : QueryService) (now : Q) (r : Response) : Machine :=
  mkMachine self now (always r (1 # 4)) [].

Definition esearch_url : string :=
  "https://eutils.ncbi.nlm.nih.gov/entrez/eutils/esearch.fcgi".

Definition search_key : string :=
  query_cache_key (L := demo_libs) (fresh_client None None) "/esearch.fcgi"
    (Some search_args).

Definition stored_body : string := "<eSearchResult>stored</eSearchResult>".

Definition filled_store : SQLiteCache := store_put ∅ search_key stored_body.

(** The store after the payload of the search was written to an empty
    store. *)
Definition shared : SQLiteCache := store_put ∅ search_key result_body.

(** A client whose store holds a payload for the search, early after the
    start of the clock. *)
Definition hit_machine : Machine :=
  machine (fresh_client (Some filled_store) None) (1 # 10) (reply_ok result_body).

(** A client with an empty store that gets a plain-text body. *)
Definition plain_machine : Machine :=
  machine (fresh_client (Some ∅) None) 100 (reply_ok plain_body).

Definition plain_error : exn :=
  XMLSyntaxError "Start tag expected, '<' not found, line 1, column 1".

(** Clients without store that get the reply of a rejected query, with a
    failing status and with a success status, and an access-denied page. *)
Definition rejected_machine : Machine :=
  machine (fresh_client None None) 100 (reply_bad_request rejected_body).

Definition embedded_machine : Machine :=
  machine (fresh_client None None) 100 (reply_ok rejected_body).

Definition denied_machine : Machine :=
  machine (fresh_client None None) 100 (reply_ok denied_body).

(** Fresh clients at the clock readings 100 and 1/8. *)
Definition late_machine : Machine :=
  machine (fresh_client None None) 100 (reply_ok result_body).


(** A fresh client with an empty store, at the clock reading 100. *)
Definition sharing_machine : Machine :=
  machine (fresh_client (Some ∅) None) 100 (reply_ok result_body).


(** ** Further inputs of the examples *)

Definition paging_args : dict := [(lit "retmax", PyInt 20); (lit "db", PyStr (lit "gene"))].

Definition renaming_args : dict :=
  [(lit "tool", PyStr (lit "mytool")); (lit "db", PyStr (lit "gene"))].

Definition fetch_args : dict := [(lit "db", PyStr (lit "gene")); (lit "id", PyInt 7157)].

(** A failing reply without headers, and one with a JSON body. *)
Definition bare_failure : Response :=
  {| ok := false; status_code := 502; reason := "Bad Gateway"; headers := [];
     text := "Bad Gateway"; content := "Bad Gateway" |}.

Definition json_failure : Response :=
  {| ok := false; status_code := 429; reason := "Too Many Requests";
     headers := [("content-type", "application/json")];
     text := "{" +:+ dquote +:+ "error" +:+ dquote +:+ ": " +:+ dquote
             +:+ "API rate limit exceeded" +:+ dquote +:+ "}";
     content := "" |}.

Definition bare_machine : Machine := machine (fresh_client None None) 100 bare_failure.

Definition json_machine : Machine := machine (fresh_client None None) 100 json_failure.

(** A remote service that cannot be reached. *)
Definition connection_refused : exn := LibraryError "ConnectionError" "Connection refused".

Definition refusing : Remote :=
  fun _ _ _ => {| result := PostRaised connection_refused; elapsed := 1 # 100 |}.

Definition offline_machine : Machine :=
  mkMachine (fresh_client (Some ∅) None) 100 refusing [].

(** Clients with a store, filled and empty, at the clock reading 100. *)
Definition filled_machine : Machine :=
  machine (fresh_client (Some filled_store) None) 100 (reply_ok result_body).

Definition empty_store_machine : Machine :=
  machine (fresh_client (Some ∅) None) 100 (reply_ok result_body).

(** A body that is not markup, and a page that says not to cache it. *)
Definition text_body : string := "1. VEGFA vascular endothelial growth factor A".

Definition text_machine : Machine :=
  machine (fresh_client (Some ∅) None) 100 (reply_ok text_body).

Definition no_cache_body : string :=
  "<html><head><meta content=" +:+ dquote +:+ "no-cache" +:+ dquote
  +:+ "/></head><body>ok</body></html>".

Definition no_cache_page : Element :=
  Elem "html" [] None
    [Elem "head" [] None [Elem "meta" [("content", "no-cache")] None []];
     Elem "body" [] (Some "ok") []].

Definition no_cache_machine : Machine :=
  machine (fresh_client (Some ∅) None) 100 (reply_ok no_cache_body).

(** A client with an API key that gets an access-denied page. *)
Definition keyed_machine : Machine :=
  machine (fresh_client None (Some "0123456789abcdef")) 100 (reply_ok denied_body).

Definition keyed_url : string :=
  "https://eutils.ncbi.nlm.nih.gov/entrez/eutils/esearch.fcgi?api_key=0123456789abcdef".

(** Error replies that are not the markup the module looks for: a plain
    text with a failing status, and an error element in lower case with a
    success status. *)
Definition unavailable_machine : Machine :=
  machine (fresh_client None None) 100 (reply_bad_request "Service Unavailable").

Definition lowercase_body : string :=
  "<eSearchResult><error>bad database</error></eSearchResult>".

Definition lowercase_page : Element :=
  Elem "eSearchResult" [] None [Elem "error" [] (Some "bad database") []].

Definition lowercase_machine : Machine :=
  machine (fresh_client None None) 100 (reply_ok lowercase_body).

(** * Properties *)

(** ** The order on keys and [sorted] *)

Lemma ltb_lts (a b : string) : String.ltb a b = true <-> String_as_OT.lt a b.
Proof.
  unfold String.ltb. rewrite <- String_as_OT.cmp_lt. unfold String_as_OT.cmp.
  destruct (String.compare a b); split; congruence.
Qed.

Lemma ltb_irrefl (a : string) : String.ltb a a = false.
Proof.
  destruct (String.ltb a a) eqn:E; [|reflexivity].
  apply ltb_lts in E. exfalso. exact (String_as_OT.lt_not_eq _ _ E eq_refl).
Qed.

Lemma ltb_trans (a b c : string) :
  String.ltb a b = true -> String.ltb b c = true -> String.ltb a c = true.
Proof.
  rewrite !ltb_lts. apply String_as_OT.lt_trans.
Qed.

Lemma ltb_total (a b : string) :
  a <> b -> String.ltb a b = false -> String.ltb b a = true.
Proof.
  unfold String.ltb. rewrite (String.compare_antisym a b).
  destruct (String.compare b a) eqn:E; simpl; intros Hne H; try congruence.
  apply String.compare_eq_iff in E. congruence.
Qed.

(** On items with different keys, [<] on the tuples is [<] on the keys:
    the values are not compared. *)
Lemma item_ltb_keys (x y : item) :
  key_of x <> key_of y -> item_ltb x y = String.ltb (key_of x) (key_of y).
Proof.
  intros Hne. unfold item_ltb.
  destruct (String.eqb_spec (key_of x) (key_of y)); [contradiction | reflexivity].
Qed.

Lemma key_lt_irrefl (x : item) : ~ key_lt x x.
Proof. unfold key_lt. rewrite ltb_irrefl. discriminate. Qed.

Lemma key_lt_trans (x y z : item) : key_lt x y -> key_lt y z -> key_lt x z.
Proof. unfold key_lt. apply ltb_trans. Qed.

Lemma mem_key_In (k : string) (d : dict) : mem_key k d = true <-> In k (map key_of d).
Proof.
  induction d as [|[k' v] d IH]; simpl.
  - split; [discriminate | tauto].
  - rewrite orb_true_iff, IH, String.eqb_eq. unfold key_of. simpl. tauto.
Qed.

Lemma dict_wf_NoDup (d : dict) : dict_wf d = true <-> List.NoDup (map key_of d).
Proof.
  induction d as [|[k v] d IH]; simpl.
  - split; [constructor | reflexivity].
  - rewrite andb_true_iff, negb_true_iff, IH, List.NoDup_cons_iff.
    rewrite <- mem_key_In. unfold key_of. simpl.
    destruct (mem_key (chars k) d); split; intros [A B]; split;
      solve [assumption | discriminate | congruence | reflexivity].
Qed.

Lemma insort_perm (x : item) (l : list item) : Permutation (insort x l) (x :: l).
Proof.
  induction l as [|y l IH]; simpl.
  - apply Permutation_refl.
  - destruct (item_ltb x y).
    + apply Permutation_refl.
    + apply perm_trans with (y :: x :: l); [apply perm_skip, IH | apply perm_swap].
Qed.

Lemma fold_insort_perm (l acc : list item) :
  Permutation (fold_left (fun acc x => insort x acc) l acc) (l ++ acc).
Proof.
  revert acc. induction l as [|x l IH]; intros acc; simpl.
  - apply Permutation_refl.
  - eapply perm_trans; [apply IH|].
    eapply perm_trans; [apply Permutation_app_head, insort_perm|].
    symmetry. apply Permutation_middle.
Qed.

Lemma sorted_perm (l : list item) : Permutation (sorted l) l.
Proof.
  unfold sorted. eapply perm_trans; [apply fold_insort_perm|].
  rewrite app_nil_r. apply Permutation_refl.
Qed.

Lemma insort_sorted (x : item) (l : list item) :
  StronglySorted key_lt l -> ~ In (key_of x) (map key_of l) ->
  StronglySorted key_lt (insort x l).
Proof.
  induction l as [|y l IH]; simpl; intros Hs Hk.
  - repeat constructor.
  - apply StronglySorted_inv in Hs. destruct Hs as [Hs Hy].
    assert (Hne : key_of x <> key_of y) by (intros E; apply Hk; left; symmetry; exact E).
    rewrite (item_ltb_keys _ _ Hne).
    destruct (String.ltb (key_of x) (key_of y)) eqn:E.
    + constructor; [constructor; assumption|].
      constructor; [exact E|].
      eapply List.Forall_impl; [|exact Hy].
      intros z Hz. eapply key_lt_trans; [exact E | exact Hz].
    + constructor.
      * apply IH; [exact Hs | tauto].
      * assert (Hyx : key_lt y x) by (apply ltb_total; [congruence | exact E]).
        eapply Permutation_Forall; [symmetry; apply insort_perm|].
        constructor; assumption.
Qed.

Lemma fold_insort_sorted (l acc : list item) :
  StronglySorted key_lt acc -> List.NoDup (map key_of (l ++ acc)) ->
  StronglySorted key_lt (fold_left (fun acc x => insort x acc) l acc).
Proof.
  revert acc. induction l as [|x l IH]; intros acc Hs Hnd; simpl.
  - exact Hs.
  - simpl in Hnd. apply List.NoDup_cons_iff in Hnd. destruct Hnd as [Hx Hnd].
    apply IH.
    + apply insort_sorted; [exact Hs|].
      intros Hin. apply Hx. rewrite map_app. apply in_or_app. right. exact Hin.
    + eapply Permutation_NoDup; [|constructor; [exact Hx | exact Hnd]].
      change (key_of x :: map key_of (l ++ acc)) with (map key_of (x :: l ++ acc)).
      apply (Permutation_map key_of).
      eapply perm_trans; [apply Permutation_middle|].
      apply Permutation_app_head. symmetry. apply insort_perm.
Qed.

Lemma sorted_sorted (d : dict) :
  dict_wf d = true -> StronglySorted key_lt (sorted d).
Proof.
  intros Hwf. apply fold_insort_sorted; [constructor|].
  rewrite app_nil_r. apply dict_wf_NoDup, Hwf.
Qed.

(** Two lists sorted by key with the same elements are equal. *)
Lemma sorted_unique (l1 l2 : list item) :
  StronglySorted key_lt l1 -> StronglySorted key_lt l2 ->
  (forall x, In x l1 <-> In x l2) -> l1 = l2.
Proof.
  revert l2. induction l1 as [|x1 l1 IH]; intros [|x2 l2] H1 H2 Hin.
  - reflexivity.
  - destruct (proj2 (Hin x2)); left; reflexivity.
  - destruct (proj1 (Hin x1)); left; reflexivity.
  - apply StronglySorted_inv in H1. destruct H1 as [H1 Hx1].
    apply StronglySorted_inv in H2. destruct H2 as [H2 Hx2].
    rewrite List.Forall_forall in Hx1, Hx2.
    assert (E : x1 = x2).
    { destruct (proj1 (Hin x1) (or_introl eq_refl)) as [E|I1]; [congruence|].
      destruct (proj2 (Hin x2) (or_introl eq_refl)) as [E|I2]; [congruence|].
      exfalso. apply (key_lt_irrefl x1).
      eapply key_lt_trans; [apply Hx1, I2 | apply Hx2, I1]. }
    subst x2. f_equal. apply IH; try assumption.
    intros y; split; intros Hy.
    + destruct (proj1 (Hin y) (or_intror Hy)) as [E|I]; [|exact I].
      subst y. exfalso. exact (key_lt_irrefl x1 (Hx1 _ Hy)).
    + destruct (proj2 (Hin y) (or_intror Hy)) as [E|I]; [|exact I].
      subst y. exfalso. exact (key_lt_irrefl x1 (Hx2 _ Hy)).
Qed.

(** [sorted] gives one list for all the dicts with the same items. *)
Lemma sorted_same_items (d1 d2 : dict) :
  dict_wf d1 = true -> dict_wf d2 = true ->
  (forall x, In x d1 <-> In x d2) ->
  sorted (items d1) = sorted (items d2).
Proof.
  intros W1 W2 E. unfold items.
  apply sorted_unique; try (apply sorted_sorted; assumption).
  intros x. split; intros Hx.
  - apply (Permutation_in x (Permutation_sym (sorted_perm d2))).
    apply E. apply (Permutation_in x (sorted_perm d1)), Hx.
  - apply (Permutation_in x (Permutation_sym (sorted_perm d1))).
    apply E. apply (Permutation_in x (sorted_perm d2)), Hx.
Qed.

(** The item found under a key. *)
Lemma dict_find_In (k : string) (x : item) (d : dict) :
  dict_find k d = Some x -> In x d /\ key_of x = k.
Proof.
  induction d as [|y d IH]; simpl; [discriminate|].
  destruct (String.eqb_spec (key_of y) k) as [E|E]; intros H.
  - injection H as <-. split; [left; reflexivity | exact E].
  - destruct (IH H) as [I K]. split; [right; exact I | exact K].
Qed.

Lemma dict_find_mem (k : string) (d : dict) :
  mem_key k d = false -> dict_find k d = None.
Proof.
  induction d as [|[k' v] d IH]; simpl; [reflexivity|].
  unfold key_of at 1. simpl.
  destruct (String.eqb (chars k') k); simpl; [discriminate | exact IH].
Qed.

Lemma In_dict_find (x : item) (d : dict) :
  dict_wf d = true -> In x d -> dict_find (key_of x) d = Some x.
Proof.
  induction d as [|[k v] d IH]; simpl; [tauto|].
  intros W [E|I].
  - subst x. unfold key_of. simpl. rewrite String.eqb_refl. reflexivity.
  - apply andb_true_iff in W. destruct W as [Wk W].
    apply negb_true_iff in Wk.
    unfold key_of at 1. simpl.
    destruct (String.eqb_spec (chars k) (key_of x)) as [E|E].
    + exfalso. rewrite E in Wk.
      rewrite (dict_find_mem _ _ Wk) in IH. specialize (IH W I). discriminate.
    + apply IH; assumption.
Qed.

Lemma dict_get_find (k : string) (d : dict) :
  dict_get k d = option_map snd (dict_find k d).
Proof.
  induction d as [|[k' v] d IH]; simpl; [reflexivity|].
  unfold key_of at 1. simpl.
  destruct (String.eqb (chars k') k); [reflexivity | exact IH].
Qed.

(** Two dicts with the same items in another order have the same item
    under every key. *)
Lemma dict_find_perm (k : string) (d1 d2 : dict) :
  dict_wf d1 = true -> dict_wf d2 = true -> Permutation d1 d2 ->
  dict_find k d1 = dict_find k d2.
Proof.
  intros W1 W2 P.
  destruct (dict_find k d1) as [x|] eqn:F1.
  - apply dict_find_In in F1. destruct F1 as [I K]. subst k.
    symmetry. apply In_dict_find; [exact W2|].
    apply (Permutation_in x P), I.
  - destruct (dict_find k d2) as [y|] eqn:F2; [|reflexivity].
    apply dict_find_In in F2. destruct F2 as [I K]. subst k.
    rewrite (In_dict_find y d1 W1) in F1; [discriminate|].
    apply (Permutation_in y (Permutation_sym P)), I.
Qed.

(** ** The steps of [_query] *)

Section Steps.

Context {L : Libs}.

Ltac run := cbv beta iota delta [bind ret raise lift try_except get_self put_self
                                 emit advance time_monotonic time_sleep].

Lemma cache_read_run (key : string) (skip_cache : bool) (m : Machine) :
  cache_read key skip_cache m = (inr (cache_lookup (this m) key skip_cache), m).
Proof.
  unfold cache_read, cache_lookup, cache_getitem. run.
  destruct skip_cache; simpl; [reflexivity|].
  destruct (_cache (this m)) as [c|] eqn:E; simpl; [|reflexivity].
  rewrite E. destruct (store_get c key); reflexivity.
Qed.

Lemma throttle_run (skip_sleep : bool) (m : Machine) :
  exists m1,
    throttle skip_sleep m = (inr tt, m1) /\
    this m1 = this m /\ remote m1 = remote m /\
    log m1 = log m ++ throttle_events skip_sleep m /\
    (throttle_events skip_sleep m = [] -> m1 = m).
Proof.
  unfold throttle, throttle_events, sleep_time_of. run.
  destruct skip_sleep; simpl.
  - exists m. rewrite app_nil_r. auto.
  - destruct (Qltb _ _); simpl.
    + eexists. split; [reflexivity|]. simpl. repeat split; auto. discriminate.
    + exists m. rewrite app_nil_r. auto.
Qed.

Lemma requests_post_run (url : string) (data : dict) (m : Machine) :
  requests_post url data m =
  (match result (remote m url data (clock m)) with
   | Replied r => inr r
   | PostRaised e => inl e
   end, answered m url data).
Proof.
  unfold requests_post, answered. run.
  destruct (result (remote m url data (clock m))); reflexivity.
Qed.

Lemma cache_write_run (key : string) (r : Response) (m : Machine) :
  cache_write key r m =
  match _cache (this m) with
  | None => (inr tt, m)
  | Some c =>
      match _cacheable (text r) with
      | inl e => (inl e, m)
      | inr true => (inr tt, stored m c key (content r))
      | inr false => (inr tt, m)
      end
  end.
Proof.
  unfold cache_write, cache_setitem, stored. run.
  destruct (_cache (this m)) as [c|] eqn:E; simpl; [|reflexivity].
  destruct (_cacheable (text r)) as [e|[|]]; simpl; try reflexivity.
  rewrite E. reflexivity.
Qed.

(** Every call of [_query] runs in one of these ways. *)
Lemma _query_run (path : string) (args : option dict) (skip_cache skip_sleep : bool)
    (m : Machine) :
  exists evs, Run path args skip_cache skip_sleep m
                (fst (_query path args skip_cache skip_sleep m))
                (snd (_query path args skip_cache skip_sleep m)) evs.
Proof.
  remember (_query path args skip_cache skip_sleep m) as res eqn:Hres.
  unfold _query in Hres.
  unfold bind at 1 in Hres. unfold get_self at 1 in Hres.
  unfold bind at 1 in Hres. rewrite cache_read_run in Hres.
  fold (query_cache_key (this m) path args) in Hres.
  destruct (cache_lookup _ _ _) as [v|] eqn:Hh.
  { subst res. eexists. apply RunHit. exact Hh. }
  destruct (throttle_run skip_sleep m) as (m1 & Ht & Hs & Hr & Hl & _).
  unfold bind at 1 in Hres. rewrite Ht in Hres.
  unfold bind at 1 in Hres. rewrite requests_post_run in Hres.
  set (url := request_url (this m) (url_base +:+ path)) in *.
  set (data := full_args_of (this m) _) in *.
  destruct (result (remote m1 url data (clock m1))) as [r|e] eqn:Ha.
  2:{ subst res. eexists. eapply RunRaised; eauto. }
  revert Hres. run. fold (recorded (answered m1 url data)).
  destruct (classify r url) as [e|[]] eqn:Hc.
  { intros ->. eexists. eapply RunFailed; eauto. }
  rewrite cache_write_run.
  assert (Hcache : _cache (this (recorded (answered m1 url data))) = _cache (this m)).
  { simpl. rewrite Hs. reflexivity. }
  rewrite Hcache.
  destruct (_cache (this m)) as [c|] eqn:Hc'.
  2:{ intros ->. eexists. eapply RunFresh; eauto. }
  destruct (_cacheable (text r)) as [e|[|]] eqn:Hcb; intros ->.
  - eexists. eapply RunUncacheable; eauto.
  - eexists. eapply RunStored; eauto.
  - eexists. eapply RunFresh; eauto.
Qed.

Lemma throttle_facts (skip_sleep : bool) (m m1 : Machine) :
  throttle skip_sleep m = (inr tt, m1) ->
  this m1 = this m /\ remote m1 = remote m /\
  log m1 = log m ++ throttle_events skip_sleep m /\
  (throttle_events skip_sleep m = [] -> m1 = m).
Proof.
  intros H. destruct (throttle_run skip_sleep m) as (m1' & Ht & Hfacts).
  rewrite Ht in H. injection H as <-. exact Hfacts.
Qed.

Lemma events_since_app (m m' : Machine) (evs : list Event) :
  log m' = log m ++ evs -> events_since m m' = evs.
Proof.
  intros H. unfold events_since. rewrite H.
  rewrite skipn_app, skipn_all, Nat.sub_diag. reflexivity.
Qed.

Lemma Run_log path args skip_cache skip_sleep m o m' evs :
  Run path args skip_cache skip_sleep m o m' evs ->
  log m' = log m ++ evs.
Proof.
  intros R.
  destruct R as [v Hh | m1 url data e Hh Ht | m1 url data r e Hh Ht
                | m1 url data r c e Hh Ht | m1 url data r Hh Ht
                | m1 url data r c Hh Ht];
    try (apply throttle_facts in Ht; destruct Ht as (_ & _ & Hl & _));
    simpl; try rewrite Hl; rewrite <- ?app_assoc;
    try match goal with Ha : result _ = _ |- _ => rewrite Ha end;
    try reflexivity.
  rewrite app_nil_r. reflexivity.
Qed.

(** The run of a call, with the events of the call. *)
Lemma call_run (path : string) (args : option dict) (skip_cache skip_sleep : bool)
    (m : Machine) :
  Run path args skip_cache skip_sleep m
    (outcome path args skip_cache skip_sleep m)
    (machine_after path args skip_cache skip_sleep m)
    (call_events path args skip_cache skip_sleep m).
Proof.
  destruct (_query_run path args skip_cache skip_sleep m) as [evs R].
  unfold call_events, outcome, machine_after.
  rewrite (events_since_app _ _ _ (Run_log _ _ _ _ _ _ _ _ R)).
  exact R.
Qed.

Lemma replies_app (a b : list Event) : replies (a ++ b) = replies a ++ replies b.
Proof. apply flat_map_app. Qed.

Lemma cache_puts_app (a b : list Event) : cache_puts (a ++ b) = cache_puts a ++ cache_puts b.
Proof. apply flat_map_app. Qed.

Lemma posts_app (a b : list Event) : posts (a ++ b) = posts a ++ posts b.
Proof. apply flat_map_app. Qed.

Lemma sleeps_app (a b : list Event) : sleeps (a ++ b) = sleeps a ++ sleeps b.
Proof. apply flat_map_app. Qed.

Lemma replies_throttle (skip_sleep : bool) (m : Machine) :
  replies (throttle_events skip_sleep m) = [].
Proof. unfold throttle_events. destruct (_ && _); reflexivity. Qed.

Lemma cache_puts_throttle (skip_sleep : bool) (m : Machine) :
  cache_puts (throttle_events skip_sleep m) = [].
Proof. unfold throttle_events. destruct (_ && _); reflexivity. Qed.

Lemma posts_throttle (skip_sleep : bool) (m : Machine) :
  posts (throttle_events skip_sleep m) = [].
Proof. unfold throttle_events. destruct (_ && _); reflexivity. Qed.

Lemma Qltb_lt (x y : Q) : Qltb x y = true <-> (x < y)%Q.
Proof.
  unfold Qltb. rewrite negb_true_iff. split.
  - intros H. apply Qnot_le_lt. intros Hle. apply Qle_bool_iff in Hle. congruence.
  - intros H. destruct (Qle_bool y x) eqn:E; [|reflexivity].
    apply Qle_bool_iff in E. exfalso. exact (Qlt_not_le _ _ H E).
Qed.

End Steps.

(** Case analysis on the run of a call. *)
Ltac run_cases path args skip_cache skip_sleep m :=
  let R := fresh "R" in
  pose proof (call_run path args skip_cache skip_sleep m) as R;
  let o := fresh "o" in let m' := fresh "m'" in let evs := fresh "evs" in
  remember (outcome path args skip_cache skip_sleep m) as o;
  remember (machine_after path args skip_cache skip_sleep m) as m';
  remember (call_events path args skip_cache skip_sleep m) as evs;
  destruct R as [v Hh | m1 u d e Hh Ht Hu Hd Ha
                | m1 u d r' e Hh Ht Hu Hd Ha Hc
                | m1 u d r' c e Hh Ht Hu Hd Ha Hc Hs Hcb
                | m1 u d r' Hh Ht Hu Hd Ha Hc Hs
                | m1 u d r' c Hh Ht Hu Hd Ha Hc Hs Hcb].

(** ** What a call does with the reply it gets *)

Section Replies.

Context {L : Libs}.

Ltac events :=
  rewrite ?replies_app, ?cache_puts_app, ?posts_app,
          ?replies_throttle, ?cache_puts_throttle, ?posts_throttle; simpl.

(** A call gets at most one reply; its outcome and its write to the cache
    are those that follow the reply. *)
Lemma call_reply (path : string) (args : option dict) (skip_cache skip_sleep : bool)
    (m : Machine) (url : string) (r : Response) :
  In (url, r) (replies (call_events path args skip_cache skip_sleep m)) ->
  url = request_url (this m) (url_base +:+ path) /\
  replies (call_events path args skip_cache skip_sleep m) = [(url, r)] /\
  outcome path args skip_cache skip_sleep m = outcome_after (this m) r url /\
  cache_puts (call_events path args skip_cache skip_sleep m)
  = puts_after (this m) (query_cache_key (this m) path args) r url.
Proof.
  unfold outcome_after, puts_after.
  run_cases path args skip_cache skip_sleep m;
    events; intros Hin; try contradiction;
    destruct Hin as [Hin|[]]; injection Hin as -> ->;
    rewrite <- Hu; repeat split; try reflexivity;
    rewrite ?Hc, ?Hs, ?Hcb; try reflexivity.
  - destruct Hs as [Hs|Hs]; rewrite Hs; [reflexivity|].
    destruct (_cache (this m)); reflexivity.
  - destruct Hs as [Hs|Hs]; rewrite Hs; [reflexivity|].
    destruct (_cache (this m)); reflexivity.
Qed.

(** Without a reply nothing is written to the cache. *)
Lemma call_no_reply (path : string) (args : option dict) (skip_cache skip_sleep : bool)
    (m : Machine) :
  replies (call_events path args skip_cache skip_sleep m) = [] ->
  cache_puts (call_events path args skip_cache skip_sleep m) = [].
Proof.
  run_cases path args skip_cache skip_sleep m;
    events; intros Hr; try discriminate; reflexivity.
Qed.

End Replies.

(** ** The cache key *)

Section CacheKey.

Context {L : Libs}.

(** The key is a function of the URL and of the items of the defining
    arguments, the objects they are made of included: two dictionaries with
    the same items give the same key, whatever the insertion orders. *)
Lemma cache_key_same_items (url : string) (m1 m2 : dict) :
  dict_wf m1 = true -> dict_wf m2 = true ->
  (forall x, In x m1 <-> In x m2) ->
  cache_key_of url m1 = cache_key_of url m2.
Proof.
  intros W1 W2 E. unfold cache_key_of.
  rewrite (sorted_same_items m1 m2 W1 W2 E). reflexivity.
Qed.

(** C5. Two clients with the same default arguments compute the same cache
    key for the same endpoint and per-call arguments, whatever their
    [tool], [email] and [api_key]: the key is made of the URL of the
    endpoint and the defining arguments only. *)
Theorem cache_key_excludes_identity (s1 s2 : QueryService) (path : string)
    (args : option dict) :
  default_args s1 = default_args s2 ->
  query_cache_key s1 path args = query_cache_key s2 path args.
Proof.
  intros E. unfold query_cache_key, defining_args_of. rewrite E. reflexivity.
Qed.

End CacheKey.

(** ** The cache short-circuit and the write to the cache *)

Section Cache.

Context {L : Libs}.

(** C6. A call that does not skip the cache, on a client whose store holds
    a payload under the cache key of the call, returns that payload and
    leaves the machine as it was: no request is sent, no sleep is taken,
    and [_last_request_clock] keeps its value. *)
Theorem cache_hit_short_circuit (m : Machine) (path : string) (args : option dict)
    (skip_sleep : bool) (store : SQLiteCache) (payload : string) :
  _cache (this m) = Some store ->
  store_get store (query_cache_key (this m) path args) = Some payload ->
  _query path args false skip_sleep m = (inr payload, m).
Proof.
  intros Hc Hp. unfold _query.
  unfold bind at 1. unfold get_self at 1.
  unfold bind at 1. rewrite cache_read_run.
  fold (query_cache_key (this m) path args).
  unfold cache_lookup. rewrite Hc, Hp. reflexivity.
Qed.

(** C7. A call writes to the cache exactly when the client has a store,
    the call got a reply, the reply classifies as success and its body is
    cache-eligible; the write puts the content of the reply under the cache
    key of the call. The flag [skip_cache] has no part in the condition:
    with [skip_cache] the request is always sent. A call that raises writes
    nothing. *)
Theorem cache_put_iff (path : string) (args : option dict) (skip_cache skip_sleep : bool)
    (m : Machine) :
  (forall k v,
      In (k, v) (cache_puts (call_events path args skip_cache skip_sleep m)) <->
      exists c url r,
        _cache (this m) = Some c /\
        In (url, r) (replies (call_events path args skip_cache skip_sleep m)) /\
        classify r url = inr tt /\
        _cacheable (text r) = inr true /\
        k = query_cache_key (this m) path args /\ v = content r) /\
  (forall e,
      outcome path args skip_cache skip_sleep m = inl e ->
      cache_puts (call_events path args skip_cache skip_sleep m) = []) /\
  posts (call_events path args true skip_sleep m)
  = [(request_url (this m) (url_base +:+ path),
      full_args_of (this m) (match args with None => [] | Some a => a end))].
Proof.
  split; [|split].
  - intros k v. split.
    + intros Hin.
      destruct (replies (call_events path args skip_cache skip_sleep m))
        as [|[url r] rest] eqn:Hr.
      { rewrite (call_no_reply _ _ _ _ _ Hr) in Hin. contradiction. }
      assert (Hin' : In (url, r) (replies (call_events path args skip_cache skip_sleep m)))
        by (rewrite Hr; left; reflexivity).
      destruct (call_reply _ _ _ _ _ _ _ Hin') as (_ & _ & _ & Hp).
      rewrite Hp in Hin. unfold puts_after in Hin.
      destruct (classify r url) as [e|[]] eqn:Hc; [contradiction|].
      destruct (_cache (this m)) as [c|] eqn:Hs; [|contradiction].
      destruct (_cacheable (text r)) as [e|[|]] eqn:Hcb; try contradiction.
      destruct Hin as [Hin|[]]. injection Hin as <- <-.
      exists c, url, r. rewrite <- Hr. auto 10.
    + intros (c & url & r & Hs & Hin & Hc & Hcb & -> & ->).
      destruct (call_reply _ _ _ _ _ _ _ Hin) as (_ & _ & _ & Hp).
      rewrite Hp. unfold puts_after. rewrite Hc, Hs, Hcb. left. reflexivity.
  - intros e He.
    destruct (replies (call_events path args skip_cache skip_sleep m))
      as [|[url r] rest] eqn:Hr.
    { apply call_no_reply, Hr. }
    assert (Hin' : In (url, r) (replies (call_events path args skip_cache skip_sleep m)))
      by (rewrite Hr; left; reflexivity).
    destruct (call_reply _ _ _ _ _ _ _ Hin') as (_ & _ & Ho & Hp).
    rewrite Hp. rewrite Ho in He. unfold puts_after, outcome_after in *.
    destruct (classify r url) as [e'|[]]; [reflexivity|].
    destruct (_cache (this m)); [|reflexivity].
    destruct (_cacheable (text r)) as [e'|[|]]; try reflexivity. discriminate.
  - run_cases path args true skip_sleep m; try discriminate Hh;
      rewrite ?posts_app, ?posts_throttle; simpl; rewrite <- Hu, <- Hd; reflexivity.
Qed.

(** C10. On a client with a store, a reply that classifies as success and
    whose body has the substring [no-cache] but is not well-formed markup
    does not give the payload: the error of the parser in [_cacheable] is
    what the call raises, and nothing is written to the cache. *)
Theorem cacheable_parse_error_escapes (path : string) (args : option dict)
    (skip_cache skip_sleep : bool) (m : Machine) (url : string) (r : Response)
    (c : SQLiteCache) (e : exn) :
  In (url, r) (replies (call_events path args skip_cache skip_sleep m)) ->
  _cache (this m) = Some c ->
  classify r url = inr tt ->
  str_in "no-cache" (text r) = true ->
  etree_XML (text r) = inl e ->
  outcome path args skip_cache skip_sleep m = inl e /\
  cache_puts (call_events path args skip_cache skip_sleep m) = [].
Proof.
  intros Hin Hs Hc Hn Hx.
  destruct (call_reply _ _ _ _ _ _ _ Hin) as (_ & _ & Ho & Hp).
  rewrite Ho, Hp. unfold outcome_after, puts_after, _cacheable.
  rewrite Hc, Hs, Hn, Hx. simpl. split; reflexivity.
Qed.

End Cache.

(** ** The classification of replies *)

Section Classification.

Context {L : Libs}.

Lemma check_status_ok (r : Response) : ok r = true -> check_status r = inr tt.
Proof. intros H. unfold check_status. rewrite H. reflexivity. Qed.

(** C1. A reply with a failing status, a Content-Type other than
    [application/json] and a markup body never makes the call raise
    [EutilsRequestError]: the [raise] of line 317 stands inside the [try]
    whose [except Exception] clause catches it, so the call raises
    [EutilsNCBIError]. When the body has a child [ERROR] without child
    elements of its own (as in [<ERROR>bad database</ERROR>]), the element
    is false as a condition and the message carries [Unknown Error], not
    the text of the element. *)
Theorem failing_status_markup_outcome (path : string) (args : option dict)
    (skip_cache skip_sleep : bool) (m : Machine) (url : string) (r : Response)
    (ct : string) :
  In (url, r) (replies (call_events path args skip_cache skip_sleep m)) ->
  ok r = false ->
  headers_getitem "Content-Type" (headers r) = inr ct ->
  ct <> "application/json" ->
  exists msg,
    outcome path args skip_cache skip_sleep m = inl (EutilsNCBIError msg) /\
    forall xml e,
      etree_fromstring (text r) = inr xml ->
      find "ERROR" xml = Some e ->
      el_children e = [] ->
      msg = "Error parsing response object from NCBI: " +:+
            reason r +:+ " (" +:+ str_int (status_code r) +:+ "): Unknown Error".
Proof.
  intros Hin Hok Hct Hne.
  destruct (call_reply _ _ _ _ _ _ _ Hin) as (_ & _ & Ho & _).
  rewrite Ho. unfold outcome_after, classify, check_status.
  rewrite Hok, Hct. simpl.
  apply String.eqb_neq in Hne. rewrite Hne. simpl.
  destruct (etree_fromstring (text r)) as [ex|xml] eqn:Hx; simpl.
  - eexists. split; [reflexivity|]. intros xml e Hxml. discriminate.
  - eexists. split; [reflexivity|].
    intros xml' e Hxml Hf Hch. injection Hxml as <-. rewrite Hf.
    unfold element_bool. rewrite Hch. reflexivity.
Qed.

(** C2. A reply with a success status whose body has an error marker
    never makes the call raise [EutilsRequestError]: the [raise] of
    line 325 stands inside the [try] whose [except Exception] clause
    catches it, so the call raises [EutilsNCBIError]; its message wraps the
    one of the caught exception, which carries the text of the [ERROR]
    element when the body is markup with such a child. *)
Theorem embedded_error_outcome (path : string) (args : option dict)
    (skip_cache skip_sleep : bool) (m : Machine) (url : string) (r : Response) :
  In (url, r) (replies (call_events path args skip_cache skip_sleep m)) ->
  ok r = true ->
  existsb (fun bad_word => str_in bad_word (text r)) bad_words = true ->
  exists msg,
    outcome path args skip_cache skip_sleep m = inl (EutilsNCBIError msg) /\
    forall xml e,
      etree_fromstring (text r) = inr xml ->
      find "ERROR" xml = Some e ->
      msg = "Error parsing response object from NCBI: " +:+
            reason r +:+ " (" +:+ str_int (status_code r) +:+ "): " +:+
            format_opt (el_text e).
Proof.
  intros Hin Hok Hbad.
  destruct (call_reply _ _ _ _ _ _ _ Hin) as (_ & _ & Ho & _).
  rewrite Ho. unfold outcome_after, classify.
  rewrite (check_status_ok r Hok). unfold check_bad_words. rewrite Hbad. simpl.
  destruct (etree_fromstring (text r)) as [ex|xml] eqn:Hx; simpl.
  - eexists. split; [reflexivity|]. intros xml e Hxml. discriminate.
  - destruct (find "ERROR" xml) as [e|] eqn:Hf; simpl.
    + eexists. split; [reflexivity|].
      intros xml' e' Hxml Hf'. injection Hxml as <-.
      rewrite Hf in Hf'. injection Hf' as <-. reflexivity.
    + eexists. split; [reflexivity|].
      intros xml' e' Hxml Hf'. injection Hxml as <-. congruence.
Qed.

(** C8, as the code has it. A reply with a success status and no error
    marker whose body has the access-denied marker makes the call raise
    [EutilsRequestError], the class of the rejected requests (there is no
    class of its own for a denied access), with the message
    [Access Denied: ] followed by the URL the request was sent to. *)
Theorem access_denied_outcome (path : string) (args : option dict)
    (skip_cache skip_sleep : bool) (m : Machine) (url : string) (r : Response) :
  In (url, r) (replies (call_events path args skip_cache skip_sleep m)) ->
  ok r = true ->
  existsb (fun bad_word => str_in bad_word (text r)) bad_words = false ->
  str_in access_denied_marker (text r) = true ->
  outcome path args skip_cache skip_sleep m
  = inl (EutilsRequestError ("Access Denied: " +:+ url)) /\
  kind_of (EutilsRequestError ("Access Denied: " +:+ url)) = RequestRejected /\
  url = request_url (this m) (url_base +:+ path).
Proof.
  intros Hin Hok Hbad Hm.
  destruct (call_reply _ _ _ _ _ _ _ Hin) as (Hu & _ & Ho & _).
  rewrite Ho. unfold outcome_after, classify.
  rewrite (check_status_ok r Hok). unfold check_bad_words, check_access_denied.
  rewrite Hbad, Hm. simpl. auto.
Qed.

End Classification.

(** ** The throttle *)

Section Throttle.

Context {L : Libs}.

(** C3, as the code has it. [_last_request_clock] takes the clock reading
    at the return of [requests.post] in every call that gets a reply,
    whether the call skips the throttle or not; in a call that gets no
    reply (a cache hit, or a transport that raises) it keeps its value. *)
Theorem last_request_clock_recorded (path : string) (args : option dict)
    (skip_cache skip_sleep : bool) (m : Machine) :
  _last_request_clock (this (machine_after path args skip_cache skip_sleep m))
  = match replies (call_events path args skip_cache skip_sleep m) with
    | [] => _last_request_clock (this m)
    | _ :: _ => clock (machine_after path args skip_cache skip_sleep m)
    end.
Proof.
  run_cases path args skip_cache skip_sleep m;
    rewrite ?replies_app, ?replies_throttle; simpl; try reflexivity.
  apply throttle_facts in Ht. destruct Ht as (Hs & _). rewrite Hs. reflexivity.
Qed.




End Throttle.

(** * Runs on examples *)

Section Examples.

#[local] Existing Instance demo_libs.

Example init_fresh :
  __init__ empty_disk default_email (CacheBool false) default_default_args None
    default_tool None
  = inr (fresh_client None None).
Proof. reflexivity. Qed.

Example init_fresh_cached :
  __init__ empty_disk default_email (CacheBool true) default_default_args None
    default_tool None
  = inr (fresh_client (Some ∅) None).
Proof. reflexivity. Qed.

Example init_other :
  __init__ empty_disk (lit "someone@example.org") (CachePath "") default_default_args
    None (lit "mytool") (Some "0123456789abcdef")
  = inr other_client.
Proof. reflexivity. Qed.

(** The end-to-end scenarios of the specification. Without a store the
    payload comes fresh and there is no write. *)
Example einfo_without_store :
  einfo (Some [(lit "db", PyStr (lit "protein"))])
    (machine (fresh_client None None) 100 (reply_ok result_body))
  = (inr result_body,
     mkMachine (set_last_request_clock (401 # 4) (fresh_client None None)) (401 # 4)
       (always (reply_ok result_body) (1 # 4))
       [EvPost "https://eutils.ncbi.nlm.nih.gov/entrez/eutils/einfo.fcgi"
          [(lit "tool", PyStr default_tool); (lit "email", PyStr default_email);
           (lit "retmode", PyStr (lit "xml")); (lit "usehistory", PyStr (lit "y"));
           (lit "restart", PyInt 0); (lit "retmax", PyInt 10000);
           (lit "db", PyStr (lit "protein"))]
          (Replied (reply_ok result_body))]).
Proof. vm_compute. reflexivity. Qed.

(** With an empty store the first call is sent and its payload stored; the
    second call, the same, takes the payload from the store and sends
    nothing. *)
Example esearch_twice :
  let m0 := machine (fresh_client (Some ∅) None) 100 (reply_ok result_body) in
  let m1 := machine_after "/esearch.fcgi" (Some search_args) false true m0 in
  outcome "/esearch.fcgi" (Some search_args) false true m0 = inr result_body /\
  posts (call_events "/esearch.fcgi" (Some search_args) false true m0)
  = [(esearch_url, full_args_of (fresh_client None None) search_args)] /\
  cache_puts (call_events "/esearch.fcgi" (Some search_args) false true m0)
  = [(query_cache_key (fresh_client None None) "/esearch.fcgi" (Some search_args),
      result_body)] /\
  outcome "/esearch.fcgi" (Some search_args) false true m1 = inr result_body /\
  call_events "/esearch.fcgi" (Some search_args) false true m1 = [].
Proof. vm_compute. repeat split; reflexivity. Qed.

(** A payload stored by one client is found by a client with another
    tool, email and API key that has the same store. *)
Example shared_store_across_identities :
  machine_after "/esearch.fcgi" (Some search_args) false true
    (machine (fresh_client (Some ∅) None) 100 (reply_ok result_body))
  = mkMachine (set_cache (Some shared) (set_last_request_clock (401 # 4)
                 (fresh_client (Some ∅) None)))
      (401 # 4) (always (reply_ok result_body) (1 # 4))
      [EvPost esearch_url (full_args_of (fresh_client None None) search_args)
         (Replied (reply_ok result_body));
       EvCachePut search_key result_body] /\
  _query "/esearch.fcgi" (Some search_args_swapped) false false
    (machine (set_cache (Some shared) other_client) 200 (reply_ok stored_body))
  = (inr result_body,
     machine (set_cache (Some shared) other_client) 200 (reply_ok stored_body)).
Proof. vm_compute. split; reflexivity. Qed.

(** A reply that says not to cache it comes fresh and is not stored. *)
Example no_cache_meta_not_stored :
  let body := "<html><head><meta content=" +:+ dquote +:+ "no-cache" +:+ dquote
              +:+ "/></head><body>ok</body></html>" in
  let m0 := machine (fresh_client (Some ∅) None) 100 (reply_ok body) in
  outcome "/esearch.fcgi" (Some search_args) false true m0 = inr body /\
  cache_puts (call_events "/esearch.fcgi" (Some search_args) false true m0) = [].
Proof. vm_compute. split; reflexivity. Qed.

(** The write to the cache does not look at [skip_cache]. *)
Example skip_cache_still_stores :
  cache_puts (call_events "/esearch.fcgi" (Some search_args) true true
                (machine (fresh_client (Some ∅) None) 100 (reply_ok result_body)))
  = [(query_cache_key (fresh_client None None) "/esearch.fcgi" (Some search_args),
      result_body)].
Proof. vm_compute. reflexivity. Qed.

(** A JSON error reply is the one case that raises [EutilsRequestError]
    for a failing status. *)
Example json_error_reply :
  let r := {| ok := false; status_code := 400; reason := "Bad Request";
              headers := [("content-type", "application/json")];
              text := "{" +:+ dquote +:+ "error" +:+ dquote +:+ ": " +:+ dquote
                      +:+ "API key invalid" +:+ dquote +:+ "}";
              content := "" |} in
  outcome "/esearch.fcgi" (Some search_args) false false
    (machine (fresh_client None None) 100 r)
  = inl (EutilsRequestError "Bad Request (400): API key invalid").
Proof. vm_compute. reflexivity. Qed.

(** C1 at the reply of a rejected query:
    [400 Bad Request] with the body
    [<eSearchResult><ERROR>bad database</ERROR></eSearchResult>]. *)
Example rejected_query_outcome :
  outcome "/esearch.fcgi" (Some search_args) false false
    (machine (fresh_client None None) 100 (reply_bad_request rejected_body))
  = inl (EutilsNCBIError
           "Error parsing response object from NCBI: Bad Request (400): Unknown Error").
Proof. vm_compute. reflexivity. Qed.

(** C2 at the same body with the status [200 OK]. *)
Example embedded_error_run :
  outcome "/esearch.fcgi" (Some search_args) false false
    (machine (fresh_client None None) 100 (reply_ok rejected_body))
  = inl (EutilsNCBIError
           "Error parsing response object from NCBI: OK (200): bad database").
Proof. vm_compute. reflexivity. Qed.

(** C4 fails in the code. [shared_args] and [unshared_args] are two
    dictionaries with the same key-value content, inserted in different
    orders; the values of the first are one string object, those of the
    second are two. [sorted] puts the items of both in the same order, but
    [pickle.dumps] writes the second value of the first as a reference to
    the string already written and the second value of the second in full:
    the two cache keys differ, in spite of the canonicalization that the
    comment of lines 257-260 announces, and a payload stored at a call with
    the first dictionary is not found by a call with the second, which sends
    the request again. *)
Theorem cache_key_string_sharing :
  dict_wf shared_args = true /\
  dict_wf unshared_args = true /\
  dict_eq shared_args unshared_args = true /\
  dict_eq unshared_args shared_args = true /\
  pickle_view esearch_url (sorted (items shared_args))
  = (esearch_url, [(New "db", SeenStr (New "gene")); (New "term", SeenStr (Again 2))]) /\
  pickle_view esearch_url (sorted (items unshared_args))
  = (esearch_url, [(New "db", SeenStr (New "gene")); (New "term", SeenStr (New "gene"))]) /\
  cache_key_of esearch_url shared_args <> cache_key_of esearch_url unshared_args /\
  cache_puts (call_events "/esearch.fcgi" (Some shared_args) false true sharing_machine)
  = [(query_cache_key (fresh_client None None) "/esearch.fcgi" (Some shared_args),
      result_body)] /\
  posts (call_events "/esearch.fcgi" (Some unshared_args) false true
           (machine_after "/esearch.fcgi" (Some shared_args) false true sharing_machine))
  = [(esearch_url, full_args_of (fresh_client None None) unshared_args)].
Proof.
  repeat (split; [vm_compute; reflexivity|]).
  split; [vm_compute; discriminate|].
  split; vm_compute; reflexivity.
Qed.

Lemma cache_key_excludes_identity_witness :
  default_args (fresh_client None None) = default_args other_client /\
  tool (fresh_client None None) <> tool other_client /\
  email (fresh_client None None) <> email other_client /\
  api_key (fresh_client None None) <> api_key other_client /\
  query_cache_key (fresh_client None None) "/esearch.fcgi" (Some search_args)
  = query_cache_key other_client "/esearch.fcgi" (Some search_args).
Proof.
  split; [reflexivity|]. split; [discriminate|]. split; [discriminate|].
  split; [discriminate|].
  apply (cache_key_excludes_identity (fresh_client None None) other_client
           "/esearch.fcgi" (Some search_args)).
  reflexivity.
Defined.

Lemma stored_lookup :
  store_get filled_store
    (query_cache_key (this hit_machine) "/esearch.fcgi" (Some search_args))
  = Some stored_body.
Proof. vm_compute. reflexivity. Defined.

Lemma cache_hit_short_circuit_witness :
  _cache (this hit_machine) = Some filled_store /\
  store_get filled_store
    (query_cache_key (this hit_machine) "/esearch.fcgi" (Some search_args))
  = Some stored_body /\
  _query "/esearch.fcgi" (Some search_args) false false hit_machine
  = (inr stored_body, hit_machine).
Proof.
  split; [reflexivity|]. split; [exact stored_lookup|].
  exact (cache_hit_short_circuit hit_machine "/esearch.fcgi" (Some search_args) false
           filled_store stored_body eq_refl stored_lookup).
Defined.

Lemma plain_reply :
  In (esearch_url, reply_ok plain_body)
     (replies (call_events "/esearch.fcgi" (Some search_args) false false plain_machine)).
Proof. vm_compute. left. reflexivity. Defined.

Lemma plain_classified : classify (reply_ok plain_body) esearch_url = inr tt.
Proof. vm_compute. reflexivity. Defined.

Lemma plain_not_markup : etree_XML (text (reply_ok plain_body)) = inl plain_error.
Proof. vm_compute. reflexivity. Defined.

Lemma cacheable_parse_error_escapes_witness :
  In (esearch_url, reply_ok plain_body)
     (replies (call_events "/esearch.fcgi" (Some search_args) false false plain_machine)) /\
  _cache (this plain_machine) = Some ∅ /\
  classify (reply_ok plain_body) esearch_url = inr tt /\
  str_in "no-cache" (text (reply_ok plain_body)) = true /\
  etree_XML (text (reply_ok plain_body)) = inl plain_error /\
  outcome "/esearch.fcgi" (Some search_args) false false plain_machine = inl plain_error /\
  cache_puts (call_events "/esearch.fcgi" (Some search_args) false false plain_machine) = [].
Proof.
  split; [exact plain_reply|]. split; [reflexivity|]. split; [exact plain_classified|].
  split; [reflexivity|]. split; [exact plain_not_markup|].
  exact (cacheable_parse_error_escapes "/esearch.fcgi" (Some search_args) false false
           plain_machine esearch_url (reply_ok plain_body) ∅ plain_error
           plain_reply eq_refl plain_classified eq_refl plain_not_markup).
Defined.

Lemma rejected_reply :
  In (esearch_url, reply_bad_request rejected_body)
     (replies (call_events "/esearch.fcgi" (Some search_args) false false rejected_machine)).
Proof. vm_compute. left. reflexivity. Defined.

Lemma xml_is_not_json : "text/xml; charset=UTF-8" <> "application/json".
Proof. discriminate. Defined.

Lemma failing_status_markup_outcome_witness :
  In (esearch_url, reply_bad_request rejected_body)
     (replies (call_events "/esearch.fcgi" (Some search_args) false false rejected_machine)) /\
  ok (reply_bad_request rejected_body) = false /\
  headers_getitem "Content-Type" (headers (reply_bad_request rejected_body))
  = inr "text/xml; charset=UTF-8" /\
  "text/xml; charset=UTF-8" <> "application/json" /\
  exists msg,
    outcome "/esearch.fcgi" (Some search_args) false false rejected_machine
    = inl (EutilsNCBIError msg) /\
    forall xml e,
      etree_fromstring (text (reply_bad_request rejected_body)) = inr xml ->
      find "ERROR" xml = Some e ->
      el_children e = [] ->
      msg = "Error parsing response object from NCBI: " +:+
            reason (reply_bad_request rejected_body) +:+ " (" +:+
            str_int (status_code (reply_bad_request rejected_body)) +:+
            "): Unknown Error".
Proof.
  split; [exact rejected_reply|]. split; [reflexivity|]. split; [reflexivity|].
  split; [exact xml_is_not_json|].
  exact (failing_status_markup_outcome "/esearch.fcgi" (Some search_args) false false
           rejected_machine esearch_url (reply_bad_request rejected_body)
           "text/xml; charset=UTF-8" rejected_reply eq_refl eq_refl xml_is_not_json).
Defined.

Lemma embedded_reply :
  In (esearch_url, reply_ok rejected_body)
     (replies (call_events "/esearch.fcgi" (Some search_args) false false embedded_machine)).
Proof. vm_compute. left. reflexivity. Defined.

Lemma embedded_marker :
  existsb (fun bad_word => str_in bad_word (text (reply_ok rejected_body))) bad_words = true.
Proof. vm_compute. reflexivity. Defined.

Lemma embedded_error_outcome_witness :
  In (esearch_url, reply_ok rejected_body)
     (replies (call_events "/esearch.fcgi" (Some search_args) false false embedded_machine)) /\
  ok (reply_ok rejected_body) = true /\
  existsb (fun bad_word => str_in bad_word (text (reply_ok rejected_body))) bad_words = true /\
  exists msg,
    outcome "/esearch.fcgi" (Some search_args) false false embedded_machine
    = inl (EutilsNCBIError msg) /\
    forall xml e,
      etree_fromstring (text (reply_ok rejected_body)) = inr xml ->
      find "ERROR" xml = Some e ->
      msg = "Error parsing response object from NCBI: " +:+
            reason (reply_ok rejected_body) +:+ " (" +:+
            str_int (status_code (reply_ok rejected_body)) +:+ "): " +:+
            format_opt (el_text e).
Proof.
  split; [exact embedded_reply|]. split; [reflexivity|]. split; [exact embedded_marker|].
  exact (embedded_error_outcome "/esearch.fcgi" (Some search_args) false false
           embedded_machine esearch_url (reply_ok rejected_body)
           embedded_reply eq_refl embedded_marker).
Defined.

(** C8 fails at an access-denied page: the call raises
    [EutilsRequestError], whose kind is that of the rejected requests, and
    no exception of the kind [AccessDenied]. *)
Lemma access_denied_kind_counterexample :
  outcome "/esearch.fcgi" (Some search_args) false false denied_machine
  = inl (EutilsRequestError
           "Access Denied: https://eutils.ncbi.nlm.nih.gov/entrez/eutils/esearch.fcgi") /\
  ~ (exists e, outcome "/esearch.fcgi" (Some search_args) false false denied_machine = inl e /\
               kind_of e = AccessDenied).
Proof.
  assert (Ho : outcome "/esearch.fcgi" (Some search_args) false false denied_machine
               = inl (EutilsRequestError
                   "Access Denied: https://eutils.ncbi.nlm.nih.gov/entrez/eutils/esearch.fcgi"))
    by (vm_compute; reflexivity).
  split; [exact Ho|].
  intros (e & He & Hk). rewrite Ho in He. injection He as <-. discriminate Hk.
Qed.

Lemma denied_reply :
  In (esearch_url, reply_ok denied_body)
     (replies (call_events "/esearch.fcgi" (Some search_args) false false denied_machine)).
Proof. vm_compute. left. reflexivity. Defined.

Lemma denied_no_bad_word :
  existsb (fun bad_word => str_in bad_word (text (reply_ok denied_body))) bad_words = false.
Proof. vm_compute. reflexivity. Defined.

Lemma denied_marker : str_in access_denied_marker (text (reply_ok denied_body)) = true.
Proof. vm_compute. reflexivity. Defined.

Lemma access_denied_outcome_witness :
  In (esearch_url, reply_ok denied_body)
     (replies (call_events "/esearch.fcgi" (Some search_args) false false denied_machine)) /\
  ok (reply_ok denied_body) = true /\
  existsb (fun bad_word => str_in bad_word (text (reply_ok denied_body))) bad_words = false /\
  str_in access_denied_marker (text (reply_ok denied_body)) = true /\
  outcome "/esearch.fcgi" (Some search_args) false false denied_machine
  = inl (EutilsRequestError ("Access Denied: " +:+ esearch_url)) /\
  kind_of (EutilsRequestError ("Access Denied: " +:+ esearch_url)) = RequestRejected /\
  esearch_url = request_url (this denied_machine) (url_base +:+ "/esearch.fcgi").
Proof.
  split; [exact denied_reply|]. split; [reflexivity|]. split; [exact denied_no_bad_word|].
  split; [exact denied_marker|].
  exact (access_denied_outcome "/esearch.fcgi" (Some search_args) false false
           denied_machine esearch_url (reply_ok denied_body)
           denied_reply eq_refl denied_no_bad_word denied_marker).
Defined.

(** C3 fails at a call that skips the throttle: the call is sent at the
    clock reading 100 without a sleep, its reply comes a quarter of a
    second later, and [_last_request_clock] goes from 0 to 401/4. *)
Lemma skip_sleep_records_clock_counterexample :
  sleeps (call_events "/einfo.fcgi" None true true late_machine) = [] /\
  _last_request_clock (this late_machine) = 0%Q /\
  _last_request_clock (this (machine_after "/einfo.fcgi" None true true late_machine))
  = (401 # 4)%Q /\
  ~ (_last_request_clock (this (machine_after "/einfo.fcgi" None true true late_machine))
     == _last_request_clock (this late_machine))%Q.
Proof.
  split; [vm_compute; reflexivity|]. split; [reflexivity|].
  split; [vm_compute; reflexivity|].
  vm_compute. discriminate.
Qed.



End Examples.


(** * Further properties of the module *)

(** ** The merge of the argument dictionaries (lines 265-266) *)

Lemma mem_key_dict_get (k : string) (d : dict) :
  mem_key k d = false -> dict_get k d = None.
Proof.
  induction d as [|[k' v] d IH]; simpl; [reflexivity|].
  intros H. apply orb_false_iff in H. destruct H as [H1 H2].
  rewrite H1. apply IH, H2.
Qed.

Lemma dict_get_setitem (k : string) (k' : pystr) (v : pyval) (d : dict) :
  dict_get k (dict_setitem k' v d)
  = if String.eqb (chars k') k then Some v else dict_get k d.
Proof.
  induction d as [|[k0 v0] d IH]; simpl.
  - reflexivity.
  - destruct (String.eqb_spec (chars k0) (chars k')) as [E|Hne]; simpl.
    + rewrite E. destruct (String.eqb (chars k') k); reflexivity.
    + rewrite IH. destruct (String.eqb_spec (chars k0) k) as [E'|Hne'].
      * destruct (String.eqb_spec (chars k') k) as [E''|_]; [congruence | reflexivity].
      * reflexivity.
Qed.

Lemma mem_key_setitem (k : string) (k' : pystr) (v : pyval) (d : dict) :
  mem_key k (dict_setitem k' v d) = String.eqb (chars k') k || mem_key k d.
Proof.
  induction d as [|[k0 v0] d IH]; simpl.
  - rewrite orb_false_r. reflexivity.
  - destruct (String.eqb_spec (chars k0) (chars k')) as [E|Hne]; simpl.
    + rewrite E. destruct (String.eqb (chars k') k); reflexivity.
    + rewrite IH. destruct (String.eqb (chars k0) k), (String.eqb (chars k') k);
        reflexivity.
Qed.

Lemma dict_wf_setitem (k : pystr) (v : pyval) (d : dict) :
  dict_wf d = true -> dict_wf (dict_setitem k v d) = true.
Proof.
  induction d as [|[k0 v0] d IH]; simpl; [reflexivity|].
  intros H. apply andb_true_iff in H. destruct H as [H1 H2].
  destruct (String.eqb_spec (chars k0) (chars k)) as [E|Hne]; simpl.
  - rewrite H1, H2. reflexivity.
  - rewrite mem_key_setitem, (IH H2).
    apply negb_true_iff in H1. rewrite H1.
    apply String.eqb_neq in Hne. rewrite String.eqb_sym, Hne. reflexivity.
Qed.

Lemma fold_setitem_wf (l : list item) (d : dict) :
  dict_wf d = true ->
  dict_wf (fold_left (fun d kv => dict_setitem (fst kv) (snd kv) d) l d) = true.
Proof.
  revert d. induction l as [|[k v] l IH]; intros d H; simpl; [exact H|].
  apply IH, dict_wf_setitem, H.
Qed.

(** [dict(l)] has distinct keys. *)
Lemma dict_of_items_wf (l : list item) : dict_wf (dict_of_items l) = true.
Proof. apply fold_setitem_wf. reflexivity. Qed.

(** Setting the items of a dictionary [l] one after the other: the items
    of [l] win over what was there. *)
Lemma fold_setitem_get (k : string) (l : list item) (d : dict) :
  dict_wf l = true ->
  dict_get k (fold_left (fun d kv => dict_setitem (fst kv) (snd kv) d) l d)
  = match dict_get k l with
    | Some v => Some v
    | None => dict_get k d
    end.
Proof.
  revert d. induction l as [|[k' v] l IH]; intros d H; simpl; [reflexivity|].
  apply andb_true_iff in H. destruct H as [H1 H2]. apply negb_true_iff in H1.
  rewrite (IH _ H2), dict_get_setitem.
  destruct (String.eqb_spec (chars k') k) as [E|Hne]; [|reflexivity].
  rewrite E in H1. rewrite (mem_key_dict_get _ _ H1). reflexivity.
Qed.

Lemma dict_of_items_app_get (k : string) (l1 l2 : list item) :
  dict_wf l1 = true -> dict_wf l2 = true ->
  dict_get k (dict_of_items (l1 ++ l2))
  = match dict_get k l2 with
    | Some v => Some v
    | None => dict_get k l1
    end.
Proof.
  intros W1 W2. unfold dict_of_items. rewrite fold_left_app.
  rewrite (fold_setitem_get k l2 _ W2), (fold_setitem_get k l1 _ W1).
  destruct (dict_get k l2); [reflexivity|].
  destruct (dict_get k l1); reflexivity.
Qed.

(** The item under a key after [d[k'] = v]: the value is the new one, the
    key object is the one that was there. *)
Lemma dict_find_setitem (k : string) (k' : pystr) (v : pyval) (d : dict) :
  dict_find k (dict_setitem k' v d)
  = if String.eqb (chars k') k
    then Some (match dict_find k d with Some x => fst x | None => k' end, v)
    else dict_find k d.
Proof.
  induction d as [|[k0 v0] d IH]; simpl.
  - unfold key_of. simpl. destruct (String.eqb (chars k') k); reflexivity.
  - destruct (String.eqb_spec (chars k0) (chars k')) as [E|Hne]; simpl;
      unfold key_of; simpl.
    + rewrite E. destruct (String.eqb (chars k') k); reflexivity.
    + fold (key_of) in *. rewrite IH.
      destruct (String.eqb_spec (chars k0) k) as [E'|Hne'].
      * destruct (String.eqb_spec (chars k') k) as [E''|_]; [congruence | reflexivity].
      * reflexivity.
Qed.

Lemma fold_setitem_find (k : string) (l : list item) (d : dict) :
  dict_wf l = true ->
  dict_find k (fold_left (fun d kv => dict_setitem (fst kv) (snd kv) d) l d)
  = match dict_find k l with
    | Some x => Some (match dict_find k d with Some y => fst y | None => fst x end,
                      snd x)
    | None => dict_find k d
    end.
Proof.
  revert d. induction l as [|[k' v] l IH]; intros d H; simpl; [reflexivity|].
  apply andb_true_iff in H. destruct H as [H1 H2]. apply negb_true_iff in H1.
  rewrite (IH _ H2), dict_find_setitem. unfold key_of. simpl.
  destruct (String.eqb_spec (chars k') k) as [E|Hne]; [|reflexivity].
  rewrite E in H1. rewrite (dict_find_mem _ _ H1). reflexivity.
Qed.

(** Dictionaries with the same item under every key have the same items. *)
Lemma dict_find_ext (d1 d2 : dict) :
  dict_wf d1 = true -> dict_wf d2 = true ->
  (forall k, dict_find k d1 = dict_find k d2) ->
  forall x, In x d1 <-> In x d2.
Proof.
  intros W1 W2 E x. split; intros H.
  - apply (In_dict_find x d1 W1) in H. rewrite E in H. apply dict_find_In in H. tauto.
  - apply (In_dict_find x d2 W2) in H. rewrite <- E in H. apply dict_find_In in H. tauto.
Qed.

Section Merge.

Context {L : Libs}.

(** The key of a call for per-call arguments with the same items, given in
    two orders. *)
Lemma query_cache_key_order (self : QueryService) (path : string) (a1 a2 : dict) :
  dict_wf a1 = true -> dict_wf a2 = true -> Permutation a1 a2 ->
  query_cache_key self path (Some a1) = query_cache_key self path (Some a2).
Proof.
  intros W1 W2 P. unfold query_cache_key, defining_args_of.
  apply cache_key_same_items; try apply dict_of_items_wf.
  apply dict_find_ext; try apply dict_of_items_wf.
  intros k. unfold dict_of_items. rewrite !fold_left_app.
  unfold items. rewrite (fold_setitem_find k a1 _ W1), (fold_setitem_find k a2 _ W2).
  rewrite (dict_find_perm k a1 a2 W1 W2 P). reflexivity.
Qed.

(** X1. The defining arguments of a call have distinct keys, and a key has
    the value the per-call arguments give it, or else the value the default
    arguments give it: the per-call arguments win. *)
Theorem defining_args_precedence (self : QueryService) (args : dict) (k : string) :
  dict_wf (default_args self) = true -> dict_wf args = true ->
  dict_wf (defining_args_of self args) = true /\
  dict_get k (defining_args_of self args)
  = match dict_get k args with
    | Some v => Some v
    | None => dict_get k (default_args self)
    end.
Proof.
  intros Wd Wa. split; [apply dict_of_items_wf|].
  apply dict_of_items_app_get; assumption.
Qed.

(** X2. The arguments a call transmits have distinct keys, and a key has
    the value the per-call arguments give it, or else that of the default
    arguments, or else that of the identifying arguments ([tool] and
    [email]): an argument [tool] or [email] of the caller replaces the one
    of the client. *)
Theorem full_args_precedence (self : QueryService) (args : dict) (k : string) :
  dict_wf (_ident_args self) = true ->
  dict_wf (default_args self) = true -> dict_wf args = true ->
  dict_wf (full_args_of self args) = true /\
  dict_get k (full_args_of self args)
  = match dict_get k args with
    | Some v => Some v
    | None =>
        match dict_get k (default_args self) with
        | Some v => Some v
        | None => dict_get k (_ident_args self)
        end
    end.
Proof.
  intros Wi Wd Wa. split; [apply dict_of_items_wf|].
  unfold full_args_of.
  rewrite (dict_of_items_app_get k (items (_ident_args self))
             (items (defining_args_of self args)) Wi (dict_of_items_wf _)).
  unfold defining_args_of, items.
  rewrite (dict_of_items_app_get k _ _ Wd Wa).
  destruct (dict_get k args); [reflexivity|].
  destruct (dict_get k (default_args self)); reflexivity.
Qed.

(** X3. The cache key of a call does not depend on the order in which the
    caller wrote the per-call arguments: two argument dictionaries with
    the same items (the same key and value objects) in two insertion orders
    give the same key, whatever the default arguments. *)
Theorem query_cache_key_insertion_order (self : QueryService) (path : string)
    (a1 a2 : dict) :
  dict_wf a1 = true -> dict_wf a2 = true -> Permutation a1 a2 ->
  query_cache_key self path (Some a1) = query_cache_key self path (Some a2).
Proof. apply query_cache_key_order. Qed.

End Merge.

(** ** Requests, payloads and errors of a call *)

Section CallProperties.

Context {L : Libs}.

Lemma In_throttle_events (skip_sleep : bool) (m : Machine) (ev : Event) :
  In ev (throttle_events skip_sleep m) -> exists d, ev = EvSleep d.
Proof.
  unfold throttle_events. destruct (_ && _); simpl; [|contradiction].
  intros [<-|[]]. eexists. reflexivity.
Qed.

(** A reply with a failing status never classifies as success. *)
Lemma check_status_failing (r : Response) :
  ok r = false -> exists e, check_status r = inl e.
Proof.
  intros H. unfold check_status. rewrite H. simpl.
  destruct (headers_getitem "Content-Type" (headers r)) as [e|ct]; simpl; [eauto|].
  destruct (String.eqb ct "application/json"); simpl.
  - destruct (json_error r); simpl; eauto.
  - destruct (etree_fromstring (text r)); simpl; eauto.
Qed.

(** An error marker in the body never classifies as success. *)
Lemma check_bad_words_marker (r : Response) :
  existsb (fun bad_word => str_in bad_word (text r)) bad_words = true ->
  exists e, check_bad_words r = inl e.
Proof.
  intros H. unfold check_bad_words. rewrite H.
  destruct (etree_fromstring (text r)) as [e|xml]; simpl; [eauto|].
  destruct (find "ERROR" xml); simpl; eauto.
Qed.

Lemma classify_success (r : Response) (url : string) :
  classify r url = inr tt <->
  ok r = true /\
  existsb (fun bad_word => str_in bad_word (text r)) bad_words = false /\
  str_in access_denied_marker (text r) = false.
Proof.
  unfold classify. split.
  - intros H.
    destruct (ok r) eqn:Hok.
    2:{ destruct (check_status_failing r Hok) as [e He]. rewrite He in H. discriminate. }
    rewrite (check_status_ok r Hok) in H. simpl in H.
    destruct (existsb _ bad_words) eqn:Hbad.
    { destruct (check_bad_words_marker r Hbad) as [e He]. rewrite He in H. discriminate. }
    unfold check_bad_words in H. rewrite Hbad in H. simpl in H.
    unfold check_access_denied in H.
    destruct (str_in access_denied_marker (text r)); [discriminate | auto].
  - intros (Hok & Hbad & Hm).
    rewrite (check_status_ok r Hok). unfold check_bad_words, check_access_denied.
    rewrite Hbad, Hm. reflexivity.
Qed.

(** A hit of the cache, as [cache_hit_short_circuit] has it, for the
    proofs below. *)
Lemma hit_run (m : Machine) (path : string) (args : option dict) (skip_sleep : bool)
    (payload : string) :
  cache_lookup (this m) (query_cache_key (this m) path args) false = Some payload ->
  _query path args false skip_sleep m = (inr payload, m).
Proof.
  intros H. unfold _query.
  unfold bind at 1. unfold get_self at 1.
  unfold bind at 1. rewrite cache_read_run.
  fold (query_cache_key (this m) path args).
  rewrite H. reflexivity.
Qed.

(** X4. A call sends no request when the read of the cache finds a
    payload, and exactly one request otherwise, to the URL of the endpoint
    (with the API key, if any) and with the transmitted arguments; there is
    no second attempt, whatever the reply. *)
Theorem call_sends_one_request (path : string) (args : option dict)
    (skip_cache skip_sleep : bool) (m : Machine) :
  posts (call_events path args skip_cache skip_sleep m)
  = match cache_lookup (this m) (query_cache_key (this m) path args) skip_cache with
    | Some _ => []
    | None =>
        [(request_url (this m) (url_base +:+ path),
          full_args_of (this m) (match args with None => [] | Some a => a end))]
    end.
Proof.
  run_cases path args skip_cache skip_sleep m; rewrite Hh;
    rewrite ?posts_app, ?posts_throttle; simpl; try rewrite <- Hu, <- Hd; reflexivity.
Qed.

(** X5. What a call returns is the payload the cache held under the key of
    the call, or the content of a reply with a success status whose body
    has neither an error marker nor the access-denied marker: the body of
    a failing reply is never returned. *)
Theorem payload_provenance (path : string) (args : option dict)
    (skip_cache skip_sleep : bool) (m : Machine) (payload : string) :
  outcome path args skip_cache skip_sleep m = inr payload ->
  cache_lookup (this m) (query_cache_key (this m) path args) skip_cache = Some payload \/
  exists url r,
    replies (call_events path args skip_cache skip_sleep m) = [(url, r)] /\
    ok r = true /\
    existsb (fun bad_word => str_in bad_word (text r)) bad_words = false /\
    str_in access_denied_marker (text r) = false /\
    payload = content r.
Proof.
  run_cases path args skip_cache skip_sleep m; intros Ho; try discriminate Ho;
    injection Ho as <-.
  - left. exact Hh.
  - right. exists u, r'. rewrite replies_app, replies_throttle. simpl.
    apply classify_success in Hc. destruct Hc as (H1 & H2 & H3). auto.
  - right. exists u, r'. rewrite replies_app, replies_throttle. simpl.
    apply classify_success in Hc. destruct Hc as (H1 & H2 & H3). auto.
Qed.

(** X6. A reply classifies as success exactly when its status is a
    success, its body has none of the error markers [<error>] and
    [<ERROR>], and its body has no access-denied marker: the branch of a
    failing status and the branch of an error marker always raise. *)
Theorem classify_success_iff (r : Response) (url : string) :
  classify r url = inr tt <->
  ok r = true /\
  existsb (fun bad_word => str_in bad_word (text r)) bad_words = false /\
  str_in access_denied_marker (text r) = false.
Proof. apply classify_success. Qed.

Lemma headers_getitem_missing (name : string) (h : list (string * string)) :
  forallb (fun kv => negb (String.eqb (lower (fst kv)) (lower name))) h = true ->
  headers_getitem name h = inl (KeyError (lower name)).
Proof.
  induction h as [|[k v] h IH]; simpl; [reflexivity|].
  intros H. apply andb_true_iff in H. destruct H as [H1 H2].
  apply negb_true_iff in H1. rewrite H1. apply IH, H2.
Qed.

(** X7. A reply with a failing status and no Content-Type header makes the
    call raise the [KeyError] of the lookup [r.headers["Content-Type"]]:
    neither of the two error classes of the package. *)
Theorem missing_content_type_raises_key_error (path : string) (args : option dict)
    (skip_cache skip_sleep : bool) (m : Machine) (url : string) (r : Response) :
  In (url, r) (replies (call_events path args skip_cache skip_sleep m)) ->
  ok r = false ->
  forallb (fun kv => negb (String.eqb (lower (fst kv)) "content-type")) (headers r) = true ->
  outcome path args skip_cache skip_sleep m = inl (KeyError "content-type").
Proof.
  intros Hin Hok Hh.
  destruct (call_reply _ _ _ _ _ _ _ Hin) as (_ & _ & Ho & _).
  rewrite Ho. unfold outcome_after, classify, check_status. rewrite Hok. simpl negb.
  cbv iota.
  rewrite (headers_getitem_missing "Content-Type" (headers r) Hh). reflexivity.
Qed.

(** X8. A reply with a failing status whose Content-Type is exactly
    [application/json] makes the call raise [EutilsRequestError] with the
    reason, the status code and the member [error] of the body; when the
    body cannot be decoded or has no such member, the call raises what the
    decoder or the lookup raises. *)
Theorem json_error_reply_outcome (path : string) (args : option dict)
    (skip_cache skip_sleep : bool) (m : Machine) (url : string) (r : Response) :
  In (url, r) (replies (call_events path args skip_cache skip_sleep m)) ->
  ok r = false ->
  headers_getitem "Content-Type" (headers r) = inr "application/json" ->
  outcome path args skip_cache skip_sleep m
  = match json_error r with
    | inr error =>
        inl (EutilsRequestError
               (reason r +:+ " (" +:+ str_int (status_code r) +:+ "): " +:+ error))
    | inl e => inl e
    end.
Proof.
  intros Hin Hok Hct.
  destruct (call_reply _ _ _ _ _ _ _ Hin) as (_ & _ & Ho & _).
  rewrite Ho. unfold outcome_after, classify, check_status. rewrite Hok, Hct. simpl.
  destruct (json_error r); reflexivity.
Qed.

(** X9. When the transport raises, the call raises the same exception, the
    client is left as it was (the clock reading is not recorded, the store
    is not written) and nothing else has happened but the sleep of the
    throttle. *)
Theorem transport_error_propagates (path : string) (args : option dict)
    (skip_cache skip_sleep : bool) (m : Machine) (url : string) (data : dict)
    (ex : exn) :
  In (EvPost url data (PostRaised ex)) (call_events path args skip_cache skip_sleep m) ->
  outcome path args skip_cache skip_sleep m = inl ex /\
  this (machine_after path args skip_cache skip_sleep m) = this m /\
  replies (call_events path args skip_cache skip_sleep m) = [] /\
  cache_puts (call_events path args skip_cache skip_sleep m) = [].
Proof.
  run_cases path args skip_cache skip_sleep m; intros Hin;
    try (apply in_app_or in Hin;
         destruct Hin as [Hin|Hin];
         [apply In_throttle_events in Hin; destruct Hin as [x Hx]; discriminate Hx|]);
    simpl in Hin.
  - contradiction.
  - destruct Hin as [Hin|[]]. injection Hin as _ _ <-.
    apply throttle_facts in Ht. destruct Ht as (Hs & _).
    rewrite replies_app, replies_throttle, cache_puts_app, cache_puts_throttle.
    simpl. rewrite Hs. auto.
  - destruct Hin as [Hin|[]]. discriminate Hin.
  - destruct Hin as [Hin|[]]. discriminate Hin.
  - destruct Hin as [Hin|[]]. discriminate Hin.
  - destruct Hin as [Hin|[Hin|[]]]; discriminate Hin.
Qed.

(** X10. A call changes nothing of the client but [_last_request_clock]
    and the store: the default arguments, the identity, the request
    interval and the identifying arguments stay, [_request_count] is never
    counted up, and the remote service is the same. *)
Theorem call_frame (path : string) (args : option dict)
    (skip_cache skip_sleep : bool) (m : Machine) :
  default_args (this (machine_after path args skip_cache skip_sleep m))
  = default_args (this m) /\
  email (this (machine_after path args skip_cache skip_sleep m)) = email (this m) /\
  tool (this (machine_after path args skip_cache skip_sleep m)) = tool (this m) /\
  api_key (this (machine_after path args skip_cache skip_sleep m)) = api_key (this m) /\
  request_interval (this (machine_after path args skip_cache skip_sleep m))
  = request_interval (this m) /\
  _ident_args (this (machine_after path args skip_cache skip_sleep m))
  = _ident_args (this m) /\
  _request_count (this (machine_after path args skip_cache skip_sleep m))
  = _request_count (this m) /\
  remote (machine_after path args skip_cache skip_sleep m) = remote m.
Proof.
  run_cases path args skip_cache skip_sleep m;
    try (apply throttle_facts in Ht; destruct Ht as (Hs' & Hr' & _));
    simpl; rewrite ?Hs', ?Hr'; repeat split; reflexivity.
Qed.

End CallProperties.

(** ** The store across calls *)

Section StoreProperties.

Context {L : Libs}.

(** X11. A call leaves what the store holds under every key but the cache
    key of the call, and a client has a store after the call exactly when
    it had one before. *)
Theorem store_frame (path : string) (args : option dict)
    (skip_cache skip_sleep : bool) (m : Machine) (k : string) :
  k <> query_cache_key (this m) path args ->
  cache_lookup (this (machine_after path args skip_cache skip_sleep m)) k false
  = cache_lookup (this m) k false /\
  truthy_cache (_cache (this (machine_after path args skip_cache skip_sleep m)))
  = truthy_cache (_cache (this m)).
Proof.
  intros Hk. unfold cache_lookup.
  run_cases path args skip_cache skip_sleep m;
    try (apply throttle_facts in Ht; destruct Ht as (Hs' & _));
    simpl; rewrite ?Hs'; try (split; reflexivity).
  rewrite Hs. simpl. split; [|reflexivity].
  unfold store_get, store_put. apply lookup_insert_ne. congruence.
Qed.

(** X12. After a call that wrote a payload to the store, a call for the
    same endpoint with the same items as per-call arguments (the same key
    and value objects), in whatever order they are inserted, that does not
    skip the cache returns that payload and leaves the machine as it is:
    no second request is sent. *)
Theorem stored_then_hit (path : string) (a1 a2 : dict)
    (skip_cache skip_sleep skip_sleep' : bool) (m : Machine) (k payload : string) :
  dict_wf a1 = true -> dict_wf a2 = true -> Permutation a1 a2 ->
  In (k, payload) (cache_puts (call_events path (Some a1) skip_cache skip_sleep m)) ->
  _query path (Some a2) false skip_sleep'
    (machine_after path (Some a1) skip_cache skip_sleep m)
  = (inr payload, machine_after path (Some a1) skip_cache skip_sleep m).
Proof.
  intros W1 W2 E.
  run_cases path (Some a1) skip_cache skip_sleep m;
    rewrite ?cache_puts_app, ?cache_puts_throttle; simpl; intros Hin;
    try contradiction.
  destruct Hin as [Hin|[]]. injection Hin as <- <-.
  apply hit_run. unfold cache_lookup. simpl.
  apply throttle_facts in Ht. destruct Ht as (Hs' & _).
  assert (Hkey : query_cache_key (set_cache (Some (store_put c
                   (query_cache_key (this m) path (Some a1)) (content r')))
                   (set_last_request_clock (clock m1 + elapsed (remote m1 u d (clock m1)))
                      (this m1))) path (Some a2)
                 = query_cache_key (this m) path (Some a1)).
  { rewrite (query_cache_key_order (this m) path a1 a2 W1 W2 E).
    unfold query_cache_key, defining_args_of. simpl. rewrite Hs'. reflexivity. }
  rewrite Hkey. unfold store_get, store_put. apply lookup_insert_eq.
Qed.

End StoreProperties.

(** ** The spacing of requests (lines 293-301) *)

Section ThrottleProperties.

Context {L : Libs}.

Lemma throttle_clock (m : Machine) :
  (request_interval (this m)
   <= clock (snd (throttle false m)) - _last_request_clock (this m))%Q /\
  (clock m <= clock (snd (throttle false m)))%Q /\
  (0 <= request_interval (this m) -> _last_request_clock (this m) <= clock m ->
   clock (snd (throttle false m)) - clock m <= request_interval (this m))%Q.
Proof.
  unfold throttle.
  cbv beta iota delta [bind ret get_self time_monotonic time_sleep emit advance negb].
  destruct (Qltb 0 (request_interval (this m) - (clock m - _last_request_clock (this m))))
    eqn:E; simpl.
  - apply Qltb_lt in E. repeat split; intros; lra.
  - assert (H : ~ (0 < request_interval (this m)
                       - (clock m - _last_request_clock (this m)))%Q).
    { intros H. apply Qltb_lt in H. congruence. }
    apply Qnot_lt_le in H. repeat split; intros; lra.
Qed.

Lemma throttle_skip_clock (m : Machine) : snd (throttle true m) = m.
Proof. reflexivity. Qed.


(** X14. A call with [skip_sleep] never sleeps, however short the time
    since the last request. *)
Theorem skip_sleep_never_sleeps (path : string) (args : option dict)
    (skip_cache : bool) (m : Machine) :
  sleeps (call_events path args skip_cache true m) = [].
Proof.
  run_cases path args skip_cache true m; rewrite ?sleeps_app; reflexivity.
Qed.

(** X15. A call that got a reply is followed by a full wait: the next call
    that goes to the remote service without skipping the throttle, made at
    once, sleeps once, for a time equal to [request_interval]. *)
Theorem back_to_back_waits (path path' : string) (args args' : option dict)
    (skip_cache skip_sleep skip_cache' : bool) (m : Machine) :
  replies (call_events path args skip_cache skip_sleep m) <> [] ->
  cache_lookup (this (machine_after path args skip_cache skip_sleep m))
    (query_cache_key (this (machine_after path args skip_cache skip_sleep m)) path' args')
    skip_cache' = None ->
  (0 < request_interval (this m))%Q ->
  exists t,
    sleeps (call_events path' args' skip_cache' false
              (machine_after path args skip_cache skip_sleep m)) = [t] /\
    (t == request_interval (this m))%Q.
Proof.
  intros Hr Hmiss Hpos.
  assert (Hfirst :
    _last_request_clock (this (machine_after path args skip_cache skip_sleep m))
    = clock (machine_after path args skip_cache skip_sleep m) /\
    request_interval (this (machine_after path args skip_cache skip_sleep m))
    = request_interval (this m)).
  { revert Hr. clear Hmiss.
    run_cases path args skip_cache skip_sleep m;
      rewrite ?replies_app, ?replies_throttle; simpl; intros Hr;
      try (exfalso; apply Hr; reflexivity);
      apply throttle_facts in Ht; destruct Ht as (Hs' & _); rewrite Hs'; auto. }
  destruct Hfirst as [Hlast Hint].
  set (m2 := machine_after path args skip_cache skip_sleep m) in *.
  assert (Hev : throttle_events false m2 = [EvSleep (sleep_time_of (this m2) (clock m2))]).
  { unfold throttle_events. simpl.
    assert (Hlt : Qltb 0 (sleep_time_of (this m2) (clock m2)) = true).
    { apply Qltb_lt. unfold sleep_time_of. rewrite Hlast, Hint. lra. }
    rewrite Hlt. reflexivity. }
  exists (sleep_time_of (this m2) (clock m2)). split.
  - revert Hmiss.
    run_cases path' args' skip_cache' false m2; intros Hmiss;
      try congruence; rewrite Hev; reflexivity.
  - unfold sleep_time_of. rewrite Hlast, Hint. lra.
Qed.

(** X16. When [_last_request_clock] is not in the future and the remote
    service takes no negative time, a call keeps it so: the clock does not
    go back during the call and [_last_request_clock] is not in the future
    after it. *)
Theorem clock_monotone (path : string) (args : option dict)
    (skip_cache skip_sleep : bool) (m : Machine) :
  (_last_request_clock (this m) <= clock m)%Q ->
  (forall url data t, 0 <= elapsed (remote m url data t))%Q ->
  (clock m <= clock (machine_after path args skip_cache skip_sleep m))%Q /\
  (_last_request_clock (this (machine_after path args skip_cache skip_sleep m))
   <= clock (machine_after path args skip_cache skip_sleep m))%Q.
Proof.
  intros Hl He.
  assert (Hth : forall m1, throttle skip_sleep m = (inr tt, m1) ->
                  (clock m <= clock m1)%Q /\ this m1 = this m /\ remote m1 = remote m).
  { intros m1 Ht. pose proof (throttle_facts _ _ _ Ht) as (Hs' & Hr' & _).
    split; [|auto]. destruct skip_sleep.
    - injection Ht as <-. lra.
    - pose proof (throttle_clock m) as (_ & Hc & _). rewrite Ht in Hc. exact Hc. }
  run_cases path args skip_cache skip_sleep m;
    try (destruct (Hth _ Ht) as (Hc' & Hs' & Hr');
         pose proof (He u d (clock m1)) as He'; rewrite <- Hr' in He');
    simpl; rewrite ?Hs'; split; lra.
Qed.

End ThrottleProperties.

(** ** The decision to cache (lines 251-255 and 332-338) *)

Section CacheableProperties.

Context {L : Libs}.

(** X17. On a client with a store, a reply that classifies as success and
    whose body does not have the substring [no-cache] is returned and
    written to the store without a look at the markup: the body need not
    be markup at all. *)
Theorem tokenless_body_stored (path : string) (args : option dict)
    (skip_cache skip_sleep : bool) (m : Machine) (url : string) (r : Response)
    (store : SQLiteCache) :
  In (url, r) (replies (call_events path args skip_cache skip_sleep m)) ->
  _cache (this m) = Some store ->
  classify r url = inr tt ->
  str_in "no-cache" (text r) = false ->
  outcome path args skip_cache skip_sleep m = inr (content r) /\
  cache_puts (call_events path args skip_cache skip_sleep m)
  = [(query_cache_key (this m) path args, content r)] /\
  _cache (this (machine_after path args skip_cache skip_sleep m))
  = Some (store_put store (query_cache_key (this m) path args) (content r)).
Proof.
  intros Hin Hst Hcl Hn.
  destruct (call_reply _ _ _ _ _ _ _ Hin) as (_ & Hr & Ho & Hp).
  rewrite Ho, Hp. unfold outcome_after, puts_after, _cacheable.
  rewrite Hcl, Hst, Hn. split; [reflexivity|]. split; [reflexivity|].
  revert Hr.
  run_cases path args skip_cache skip_sleep m;
    rewrite ?replies_app, ?replies_throttle; simpl; intros Hr;
    try discriminate Hr; injection Hr as <- <-.
  - rewrite Hcl in Hc. discriminate.
  - unfold _cacheable in Hcb. rewrite Hn in Hcb. discriminate.
  - destruct Hs as [Hs|Hs]; [congruence|].
    unfold _cacheable in Hs. rewrite Hn in Hs. discriminate.
  - rewrite Hst in Hs. injection Hs as <-. reflexivity.
Qed.

(** X18. On a client with a store, a reply that classifies as success and
    whose body has the substring [no-cache] and is markup is returned, and
    it is written to the store exactly when no [meta] element of the
    markup has the attribute [content] with the value [no-cache]. *)
Theorem no_cache_meta_gates_store (path : string) (args : option dict)
    (skip_cache skip_sleep : bool) (m : Machine) (url : string) (r : Response)
    (c : SQLiteCache) (xml : Element) :
  In (url, r) (replies (call_events path args skip_cache skip_sleep m)) ->
  _cache (this m) = Some c ->
  classify r url = inr tt ->
  str_in "no-cache" (text r) = true ->
  etree_XML (text r) = inr xml ->
  outcome path args skip_cache skip_sleep m = inr (content r) /\
  cache_puts (call_events path args skip_cache skip_sleep m)
  = if xpath_meta_no_cache xml then []
    else [(query_cache_key (this m) path args, content r)].
Proof.
  intros Hin Hs Hc Hn Hx.
  destruct (call_reply _ _ _ _ _ _ _ Hin) as (_ & _ & Ho & Hp).
  rewrite Ho, Hp. unfold outcome_after, puts_after, _cacheable.
  rewrite Hc, Hs, Hn, Hx. simpl.
  destruct (xpath_meta_no_cache xml); split; reflexivity.
Qed.

(** X19. The message of the access-denied error carries the API key of
    the client: the URL it names is the one the request was sent to, with
    the key appended. *)
Theorem access_denied_message_has_api_key (path : string) (args : option dict)
    (skip_cache skip_sleep : bool) (m : Machine) (url : string) (r : Response)
    (key : string) :
  In (url, r) (replies (call_events path args skip_cache skip_sleep m)) ->
  ok r = true ->
  existsb (fun bad_word => str_in bad_word (text r)) bad_words = false ->
  str_in access_denied_marker (text r) = true ->
  api_key (this m) = Some key ->
  key <> "" ->
  outcome path args skip_cache skip_sleep m
  = inl (EutilsRequestError
           ("Access Denied: " +:+ (url_base +:+ path) +:+ "?api_key=" +:+ key)).
Proof.
  intros Hin Hok Hbad Hm Hk Hne.
  destruct (call_reply _ _ _ _ _ _ _ Hin) as (Hu & _ & Ho & _).
  rewrite Ho. unfold outcome_after, classify.
  rewrite (check_status_ok r Hok). unfold check_bad_words, check_access_denied.
  rewrite Hbad, Hm. simpl. rewrite Hu. unfold request_url. rewrite Hk. simpl.
  apply String.eqb_neq in Hne. rewrite Hne. reflexivity.
Qed.

(** X20. [einfo] never reads the cache: whatever the store holds, it sends
    one request to the endpoint [/einfo.fcgi] with the transmitted
    arguments, and without arguments it is [einfo] with the empty
    dictionary. *)
Theorem einfo_always_requests (args : option dict) (m : Machine) :
  posts (events_since m (snd (einfo args m)))
  = [(request_url (this m) (url_base +:+ "/einfo.fcgi"),
      full_args_of (this m) (match args with None => [] | Some a => a end))] /\
  einfo None m = einfo (Some []) m.
Proof.
  split; [|reflexivity].
  unfold einfo.
  change (events_since m (snd (_query "/einfo.fcgi"
            (Some (match args with None => [] | Some a => a end)) true false m)))
    with (call_events "/einfo.fcgi"
            (Some (match args with None => [] | Some a => a end)) true false m).
  run_cases "/einfo.fcgi" (Some (match args with None => [] | Some a => a end)) true false m;
    try discriminate Hh;
    rewrite ?posts_app, ?posts_throttle; simpl; rewrite <- Hu, <- Hd; reflexivity.
Qed.

End CacheableProperties.

(** ** The constructor (lines 80-130) *)

Section InitProperties.

Context {L : Libs}.

(** X21. The constructor fails only by the opening of the store, with the
    error of the opening; with [cache=False] or with the empty path it
    opens nothing, whatever the disk holds, and gives a client without
    store. *)
Theorem init_store_errors (disk : string -> exn + SQLiteCache) (email : pystr)
    (cache : cache_arg) (dargs : dict) (interval : option Q) (tool : pystr)
    (key : option string) :
  (forall e,
      __init__ disk email cache dargs interval tool key = inl e ->
      exists p, disk p = inl e /\
                (cache = CacheBool true /\ p = default_cache_path \/
                 cache = CachePath p /\ p <> "")) /\
  (cache = CacheBool false \/ cache = CachePath "" ->
   exists self,
     (forall disk', __init__ disk' email cache dargs interval tool key = inr self) /\
     _cache self = None).
Proof.
  split.
  - intros e H. unfold __init__ in H.
    destruct cache as [[|]|p].
    + destruct (disk default_cache_path) eqn:E; [|discriminate].
      injection H as <-. exists default_cache_path. auto.
    + discriminate.
    + simpl in H. destruct (String.eqb_spec p "") as [->|Hne]; simpl in H; [discriminate|].
      destruct (disk p) eqn:E; [|discriminate].
      injection H as <-. exists p. auto.
  - intros [->| ->]; eexists; split; try (intros disk'; reflexivity); reflexivity.
Qed.

(** X22. A client made with an API key other than [None] has the request
    interval of ten requests a second, the double [1.0 / 10], and one made
    without has that of three, the double [1.0 / 3]; the key is appended
    to the URL of the requests only when it is not empty, so that a client
    made with the empty key has the short interval and sends no key. *)
Theorem init_api_key (disk : string -> exn + SQLiteCache) (email : pystr)
    (cache : cache_arg) (dargs : dict) (interval : option Q) (tool : pystr)
    (key : option string) (self : QueryService) (url : string) :
  __init__ disk email cache dargs interval tool key = inr self ->
  request_interval self
  = match key with
    | None => (6004799503160661 # 18014398509481984)%Q
    | Some _ => (3602879701896397 # 36028797018963968)%Q
    end /\
  request_url self url
  = match key with
    | None => url
    | Some k => if String.eqb k "" then url else url +:+ "?api_key=" +:+ k
    end.
Proof.
  intros H.
  assert (E : api_key self = key /\
              request_interval self
              = interval_of (match key with None => 3 | Some _ => 10 end)).
  { unfold __init__ in H.
    destruct cache as [[|]|p]; try destruct (truthy_str (Some p));
      try destruct (disk _); try discriminate;
      injection H as <-; split; reflexivity. }
  destruct E as [Ek Ei]. split.
  - rewrite Ei. destruct key; vm_compute; reflexivity.
  - unfold request_url. rewrite Ek. destruct key as [k|]; simpl; [|reflexivity].
    destruct (String.eqb k ""); reflexivity.
Qed.

End InitProperties.

(** ** Error replies that cannot be read (lines 313-327) *)

Section UnreadableReplies.

Context {L : Libs}.

(** X23. When the body of an error reply (a failing status with a
    Content-Type other than [application/json], or a success status with
    an error marker) cannot be parsed, the call raises [EutilsNCBIError]
    whose message ends with the message of the parser. *)
Theorem unparsable_error_body (path : string) (args : option dict)
    (skip_cache skip_sleep : bool) (m : Machine) (url : string) (r : Response)
    (ex : exn) :
  In (url, r) (replies (call_events path args skip_cache skip_sleep m)) ->
  (ok r = false /\
   exists ct, headers_getitem "Content-Type" (headers r) = inr ct /\
              ct <> "application/json") \/
  (ok r = true /\
   existsb (fun bad_word => str_in bad_word (text r)) bad_words = true) ->
  etree_fromstring (text r) = inl ex ->
  outcome path args skip_cache skip_sleep m
  = inl (EutilsNCBIError ("Error parsing response object from NCBI: " +:+ str_exn ex)).
Proof.
  intros Hin Hbranch Hx.
  destruct (call_reply _ _ _ _ _ _ _ Hin) as (_ & _ & Ho & _).
  rewrite Ho. unfold outcome_after, classify.
  destruct Hbranch as [(Hok & ct & Hct & Hne) | (Hok & Hbad)].
  - unfold check_status. rewrite Hok, Hct. simpl.
    apply String.eqb_neq in Hne. rewrite Hne. simpl. rewrite Hx. reflexivity.
  - rewrite (check_status_ok r Hok). unfold check_bad_words. rewrite Hbad. simpl.
    rewrite Hx. reflexivity.
Qed.

(** X24. A reply with a success status whose body has an error marker but
    no child element named [ERROR] in capitals (as when the marker is
    [<error>]) makes the call raise [EutilsNCBIError] with the message of
    the [AttributeError] of [None.text]: the text of the error is lost. *)
Theorem marker_without_error_element (path : string) (args : option dict)
    (skip_cache skip_sleep : bool) (m : Machine) (url : string) (r : Response)
    (xml : Element) :
  In (url, r) (replies (call_events path args skip_cache skip_sleep m)) ->
  ok r = true ->
  existsb (fun bad_word => str_in bad_word (text r)) bad_words = true ->
  etree_fromstring (text r) = inr xml ->
  find "ERROR" xml = None ->
  outcome path args skip_cache skip_sleep m
  = inl (EutilsNCBIError
           "Error parsing response object from NCBI: 'NoneType' object has no attribute 'text'").
Proof.
  intros Hin Hok Hbad Hx Hf.
  destruct (call_reply _ _ _ _ _ _ _ Hin) as (_ & _ & Ho & _).
  rewrite Ho. unfold outcome_after, classify.
  rewrite (check_status_ok r Hok). unfold check_bad_words. rewrite Hbad. simpl.
  rewrite Hx. simpl. rewrite Hf. reflexivity.
Qed.

End UnreadableReplies.

(** * Further runs on examples *)

Section MoreExamples.

#[local] Existing Instance demo_libs.

Lemma defining_args_precedence_witness :
  dict_wf (default_args (fresh_client None None)) = true /\
  dict_wf paging_args = true /\
  dict_get "retmax" (default_args (fresh_client None None)) = Some (PyInt 10000) /\
  dict_wf (defining_args_of (fresh_client None None) paging_args) = true /\
  dict_get "retmax" (defining_args_of (fresh_client None None) paging_args)
  = match dict_get "retmax" paging_args with
    | Some v => Some v
    | None => dict_get "retmax" (default_args (fresh_client None None))
    end.
Proof.
  split; [reflexivity|]. split; [reflexivity|]. split; [reflexivity|].
  exact (defining_args_precedence (fresh_client None None) paging_args "retmax"
           eq_refl eq_refl).
Defined.

Lemma full_args_precedence_witness :
  dict_wf (_ident_args (fresh_client None None)) = true /\
  dict_wf (default_args (fresh_client None None)) = true /\
  dict_wf renaming_args = true /\
  dict_get "tool" (_ident_args (fresh_client None None)) = Some (PyStr default_tool) /\
  dict_wf (full_args_of (fresh_client None None) renaming_args) = true /\
  dict_get "tool" (full_args_of (fresh_client None None) renaming_args)
  = match dict_get "tool" renaming_args with
    | Some v => Some v
    | None =>
        match dict_get "tool" (default_args (fresh_client None None)) with
        | Some v => Some v
        | None => dict_get "tool" (_ident_args (fresh_client None None))
        end
    end.
Proof.
  split; [reflexivity|]. split; [reflexivity|]. split; [reflexivity|].
  split; [reflexivity|].
  exact (full_args_precedence (fresh_client None None) renaming_args "tool"
           eq_refl eq_refl eq_refl).
Defined.

Lemma search_args_perm : Permutation search_args search_args_swapped.
Proof. apply perm_swap. Defined.

Lemma query_cache_key_insertion_order_witness :
  dict_wf search_args = true /\
  dict_wf search_args_swapped = true /\
  Permutation search_args search_args_swapped /\
  search_args <> search_args_swapped /\
  query_cache_key (fresh_client None None) "/esearch.fcgi" (Some search_args)
  = query_cache_key (fresh_client None None) "/esearch.fcgi" (Some search_args_swapped).
Proof.
  split; [reflexivity|]. split; [reflexivity|]. split; [exact search_args_perm|].
  split; [discriminate|].
  exact (query_cache_key_insertion_order (fresh_client None None) "/esearch.fcgi"
           search_args search_args_swapped eq_refl eq_refl search_args_perm).
Defined.

Lemma late_outcome :
  outcome "/esearch.fcgi" (Some search_args) false false late_machine = inr result_body.
Proof. vm_compute. reflexivity. Defined.

Lemma payload_provenance_witness :
  outcome "/esearch.fcgi" (Some search_args) false false late_machine = inr result_body /\
  (cache_lookup (this late_machine)
     (query_cache_key (this late_machine) "/esearch.fcgi" (Some search_args)) false
   = Some result_body \/
   exists url r,
     replies (call_events "/esearch.fcgi" (Some search_args) false false late_machine)
     = [(url, r)] /\
     ok r = true /\
     existsb (fun bad_word => str_in bad_word (text r)) bad_words = false /\
     str_in access_denied_marker (text r) = false /\
     result_body = content r).
Proof.
  split; [exact late_outcome|].
  exact (payload_provenance "/esearch.fcgi" (Some search_args) false false late_machine
           result_body late_outcome).
Defined.

Lemma bare_reply :
  In (esearch_url, bare_failure)
     (replies (call_events "/esearch.fcgi" (Some search_args) false false bare_machine)).
Proof. vm_compute. left. reflexivity. Defined.

Lemma missing_content_type_raises_key_error_witness :
  In (esearch_url, bare_failure)
     (replies (call_events "/esearch.fcgi" (Some search_args) false false bare_machine)) /\
  ok bare_failure = false /\
  forallb (fun kv => negb (String.eqb (lower (fst kv)) "content-type"))
    (headers bare_failure) = true /\
  outcome "/esearch.fcgi" (Some search_args) false false bare_machine
  = inl (KeyError "content-type").
Proof.
  split; [exact bare_reply|]. split; [reflexivity|]. split; [reflexivity|].
  exact (missing_content_type_raises_key_error "/esearch.fcgi" (Some search_args)
           false false bare_machine esearch_url bare_failure bare_reply eq_refl eq_refl).
Defined.

Lemma json_reply :
  In (esearch_url, json_failure)
     (replies (call_events "/esearch.fcgi" (Some search_args) false false json_machine)).
Proof. vm_compute. left. reflexivity. Defined.

Lemma json_error_reply_outcome_witness :
  In (esearch_url, json_failure)
     (replies (call_events "/esearch.fcgi" (Some search_args) false false json_machine)) /\
  ok json_failure = false /\
  headers_getitem "Content-Type" (headers json_failure) = inr "application/json" /\
  json_error json_failure = inr "API rate limit exceeded" /\
  outcome "/esearch.fcgi" (Some search_args) false false json_machine
  = match json_error json_failure with
    | inr error =>
        inl (EutilsRequestError
               (reason json_failure +:+ " (" +:+ str_int (status_code json_failure)
                +:+ "): " +:+ error))
    | inl e => inl e
    end.
Proof.
  split; [exact json_reply|]. split; [reflexivity|]. split; [reflexivity|].
  split; [vm_compute; reflexivity|].
  exact (json_error_reply_outcome "/esearch.fcgi" (Some search_args) false false
           json_machine esearch_url json_failure json_reply eq_refl eq_refl).
Defined.

Lemma offline_post :
  In (EvPost esearch_url (full_args_of (fresh_client None None) search_args)
        (PostRaised connection_refused))
     (call_events "/esearch.fcgi" (Some search_args) false false offline_machine).
Proof. vm_compute. left. reflexivity. Defined.

Lemma transport_error_propagates_witness :
  In (EvPost esearch_url (full_args_of (fresh_client None None) search_args)
        (PostRaised connection_refused))
     (call_events "/esearch.fcgi" (Some search_args) false false offline_machine) /\
  outcome "/esearch.fcgi" (Some search_args) false false offline_machine
  = inl connection_refused /\
  this (machine_after "/esearch.fcgi" (Some search_args) false false offline_machine)
  = this offline_machine /\
  replies (call_events "/esearch.fcgi" (Some search_args) false false offline_machine) = [] /\
  cache_puts (call_events "/esearch.fcgi" (Some search_args) false false offline_machine)
  = [].
Proof.
  split; [exact offline_post|].
  exact (transport_error_propagates "/esearch.fcgi" (Some search_args) false false
           offline_machine esearch_url (full_args_of (fresh_client None None) search_args)
           connection_refused offline_post).
Defined.

Lemma other_key :
  search_key <> query_cache_key (this filled_machine) "/efetch.fcgi" (Some fetch_args).
Proof. vm_compute. discriminate. Defined.

Lemma store_frame_witness :
  search_key <> query_cache_key (this filled_machine) "/efetch.fcgi" (Some fetch_args) /\
  cache_lookup (this filled_machine) search_key false = Some stored_body /\
  cache_puts (call_events "/efetch.fcgi" (Some fetch_args) false false filled_machine)
  = [(query_cache_key (this filled_machine) "/efetch.fcgi" (Some fetch_args), result_body)] /\
  cache_lookup
    (this (machine_after "/efetch.fcgi" (Some fetch_args) false false filled_machine))
    search_key false
  = cache_lookup (this filled_machine) search_key false /\
  truthy_cache
    (_cache (this (machine_after "/efetch.fcgi" (Some fetch_args) false false
                     filled_machine)))
  = truthy_cache (_cache (this filled_machine)).
Proof.
  split; [exact other_key|]. split; [vm_compute; reflexivity|].
  split; [vm_compute; reflexivity|].
  exact (store_frame "/efetch.fcgi" (Some fetch_args) false false filled_machine
           search_key other_key).
Defined.

Lemma first_put :
  In (search_key, result_body)
     (cache_puts (call_events "/esearch.fcgi" (Some search_args) false true
                    empty_store_machine)).
Proof. vm_compute. left. reflexivity. Defined.

Lemma stored_then_hit_witness :
  dict_wf search_args = true /\
  dict_wf search_args_swapped = true /\
  Permutation search_args search_args_swapped /\
  In (search_key, result_body)
     (cache_puts (call_events "/esearch.fcgi" (Some search_args) false true
                    empty_store_machine)) /\
  _query "/esearch.fcgi" (Some search_args_swapped) false false
    (machine_after "/esearch.fcgi" (Some search_args) false true empty_store_machine)
  = (inr result_body,
     machine_after "/esearch.fcgi" (Some search_args) false true empty_store_machine).
Proof.
  split; [reflexivity|]. split; [reflexivity|]. split; [exact search_args_perm|].
  split; [exact first_put|].
  exact (stored_then_hit "/esearch.fcgi" search_args search_args_swapped false true false
           empty_store_machine search_key result_body eq_refl eq_refl search_args_perm
           first_put).
Defined.

Lemma late_replied :
  replies (call_events "/esearch.fcgi" (Some search_args) false false late_machine) <> [].
Proof. vm_compute. discriminate. Defined.

Lemma late_then_miss :
  cache_lookup
    (this (machine_after "/esearch.fcgi" (Some search_args) false false late_machine))
    (query_cache_key
       (this (machine_after "/esearch.fcgi" (Some search_args) false false late_machine))
       "/efetch.fcgi" (Some fetch_args))
    false
  = None.
Proof. vm_compute. reflexivity. Defined.

Lemma late_interval : (0 < request_interval (this late_machine))%Q.
Proof. reflexivity. Defined.

Lemma back_to_back_waits_witness :
  replies (call_events "/esearch.fcgi" (Some search_args) false false late_machine) <> [] /\
  cache_lookup
    (this (machine_after "/esearch.fcgi" (Some search_args) false false late_machine))
    (query_cache_key
       (this (machine_after "/esearch.fcgi" (Some search_args) false false late_machine))
       "/efetch.fcgi" (Some fetch_args))
    false
  = None /\
  (0 < request_interval (this late_machine))%Q /\
  exists t,
    sleeps (call_events "/efetch.fcgi" (Some fetch_args) false false
              (machine_after "/esearch.fcgi" (Some search_args) false false late_machine))
    = [t] /\
    (t == request_interval (this late_machine))%Q.
Proof.
  split; [exact late_replied|]. split; [exact late_then_miss|].
  split; [exact late_interval|].
  exact (back_to_back_waits "/esearch.fcgi" "/efetch.fcgi" (Some search_args)
           (Some fetch_args) false false false late_machine
           late_replied late_then_miss late_interval).
Defined.

Lemma late_last : (_last_request_clock (this late_machine) <= clock late_machine)%Q.
Proof. vm_compute. discriminate. Defined.

Lemma late_elapsed :
  forall (url : string) (data : dict) (t : Q),
    (0 <= elapsed (remote late_machine url data t))%Q.
Proof. intros url data t. vm_compute. discriminate. Defined.

Lemma clock_monotone_witness :
  (_last_request_clock (this late_machine) <= clock late_machine)%Q /\
  (forall (url : string) (data : dict) (t : Q),
      (0 <= elapsed (remote late_machine url data t))%Q) /\
  (clock late_machine
   <= clock (machine_after "/esearch.fcgi" (Some search_args) false false late_machine))%Q /\
  (_last_request_clock
     (this (machine_after "/esearch.fcgi" (Some search_args) false false late_machine))
   <= clock (machine_after "/esearch.fcgi" (Some search_args) false false late_machine))%Q.
Proof.
  split; [exact late_last|]. split; [exact late_elapsed|].
  exact (clock_monotone "/esearch.fcgi" (Some search_args) false false late_machine
           late_last late_elapsed).
Defined.

Lemma text_reply :
  In (esearch_url, reply_ok text_body)
     (replies (call_events "/esearch.fcgi" (Some search_args) false false text_machine)).
Proof. vm_compute. left. reflexivity. Defined.

Lemma text_classified : classify (reply_ok text_body) esearch_url = inr tt.
Proof. vm_compute. reflexivity. Defined.

Lemma text_not_markup :
  etree_XML text_body
  = inl (XMLSyntaxError "Start tag expected, '<' not found, line 1, column 1").
Proof. vm_compute. reflexivity. Qed.

Lemma tokenless_body_stored_witness :
  In (esearch_url, reply_ok text_body)
     (replies (call_events "/esearch.fcgi" (Some search_args) false false text_machine)) /\
  _cache (this text_machine) = Some ∅ /\
  classify (reply_ok text_body) esearch_url = inr tt /\
  str_in "no-cache" (text (reply_ok text_body)) = false /\
  outcome "/esearch.fcgi" (Some search_args) false false text_machine
  = inr (content (reply_ok text_body)) /\
  cache_puts (call_events "/esearch.fcgi" (Some search_args) false false text_machine)
  = [(query_cache_key (this text_machine) "/esearch.fcgi" (Some search_args),
      content (reply_ok text_body))] /\
  _cache (this (machine_after "/esearch.fcgi" (Some search_args) false false text_machine))
  = Some (store_put ∅ (query_cache_key (this text_machine) "/esearch.fcgi"
                         (Some search_args))
            (content (reply_ok text_body))).
Proof.
  split; [exact text_reply|]. split; [reflexivity|]. split; [exact text_classified|].
  split; [reflexivity|].
  exact (tokenless_body_stored "/esearch.fcgi" (Some search_args) false false text_machine
           esearch_url (reply_ok text_body) ∅ text_reply eq_refl text_classified eq_refl).
Defined.

Lemma no_cache_reply :
  In (esearch_url, reply_ok no_cache_body)
     (replies (call_events "/esearch.fcgi" (Some search_args) false false no_cache_machine)).
Proof. vm_compute. left. reflexivity. Defined.

Lemma no_cache_classified : classify (reply_ok no_cache_body) esearch_url = inr tt.
Proof. vm_compute. reflexivity. Defined.

Lemma no_cache_token : str_in "no-cache" (text (reply_ok no_cache_body)) = true.
Proof. vm_compute. reflexivity. Defined.

Lemma no_cache_parsed : etree_XML (text (reply_ok no_cache_body)) = inr no_cache_page.
Proof. vm_compute. reflexivity. Defined.

Lemma no_cache_meta_gates_store_witness :
  In (esearch_url, reply_ok no_cache_body)
     (replies (call_events "/esearch.fcgi" (Some search_args) false false no_cache_machine)) /\
  _cache (this no_cache_machine) = Some ∅ /\
  classify (reply_ok no_cache_body) esearch_url = inr tt /\
  str_in "no-cache" (text (reply_ok no_cache_body)) = true /\
  etree_XML (text (reply_ok no_cache_body)) = inr no_cache_page /\
  xpath_meta_no_cache no_cache_page = true /\
  outcome "/esearch.fcgi" (Some search_args) false false no_cache_machine
  = inr (content (reply_ok no_cache_body)) /\
  cache_puts (call_events "/esearch.fcgi" (Some search_args) false false no_cache_machine)
  = if xpath_meta_no_cache no_cache_page then []
    else [(query_cache_key (this no_cache_machine) "/esearch.fcgi" (Some search_args),
           content (reply_ok no_cache_body))].
Proof.
  split; [exact no_cache_reply|]. split; [reflexivity|].
  split; [exact no_cache_classified|]. split; [exact no_cache_token|].
  split; [exact no_cache_parsed|]. split; [reflexivity|].
  exact (no_cache_meta_gates_store "/esearch.fcgi" (Some search_args) false false
           no_cache_machine esearch_url (reply_ok no_cache_body) ∅ no_cache_page
           no_cache_reply eq_refl no_cache_classified no_cache_token no_cache_parsed).
Defined.

Lemma keyed_reply :
  In (keyed_url, reply_ok denied_body)
     (replies (call_events "/esearch.fcgi" (Some search_args) false false keyed_machine)).
Proof. vm_compute. left. reflexivity. Defined.

Lemma key_not_empty : "0123456789abcdef" <> "".
Proof. discriminate. Defined.

Lemma access_denied_message_has_api_key_witness :
  In (keyed_url, reply_ok denied_body)
     (replies (call_events "/esearch.fcgi" (Some search_args) false false keyed_machine)) /\
  ok (reply_ok denied_body) = true /\
  existsb (fun bad_word => str_in bad_word (text (reply_ok denied_body))) bad_words = false /\
  str_in access_denied_marker (text (reply_ok denied_body)) = true /\
  api_key (this keyed_machine) = Some "0123456789abcdef" /\
  "0123456789abcdef" <> "" /\
  outcome "/esearch.fcgi" (Some search_args) false false keyed_machine
  = inl (EutilsRequestError
           ("Access Denied: " +:+ (url_base +:+ "/esearch.fcgi") +:+ "?api_key="
            +:+ "0123456789abcdef")).
Proof.
  split; [exact keyed_reply|]. split; [reflexivity|]. split; [exact denied_no_bad_word|].
  split; [exact denied_marker|]. split; [reflexivity|]. split; [exact key_not_empty|].
  exact (access_denied_message_has_api_key "/esearch.fcgi" (Some search_args) false false
           keyed_machine keyed_url (reply_ok denied_body) "0123456789abcdef"
           keyed_reply eq_refl denied_no_bad_word denied_marker eq_refl key_not_empty).
Defined.

Lemma init_api_key_witness :
  __init__ empty_disk default_email (CacheBool false) default_default_args None
    default_tool (Some "") = inr (fresh_client None (Some "")) /\
  request_interval (fresh_client None (Some ""))
  = (3602879701896397 # 36028797018963968)%Q /\
  request_url (fresh_client None (Some "")) esearch_url
  = if String.eqb "" "" then esearch_url else esearch_url +:+ "?api_key=" +:+ "".
Proof.
  split; [reflexivity|].
  exact (init_api_key empty_disk default_email (CacheBool false) default_default_args
           None default_tool (Some "") (fresh_client None (Some "")) esearch_url eq_refl).
Defined.

Lemma unavailable_reply :
  In (esearch_url, reply_bad_request "Service Unavailable")
     (replies (call_events "/esearch.fcgi" (Some search_args) false false
                 unavailable_machine)).
Proof. vm_compute. left. reflexivity. Defined.

Lemma unavailable_branch :
  (ok (reply_bad_request "Service Unavailable") = false /\
   exists ct,
     headers_getitem "Content-Type" (headers (reply_bad_request "Service Unavailable"))
     = inr ct /\
     ct <> "application/json") \/
  (ok (reply_bad_request "Service Unavailable") = true /\
   existsb (fun bad_word => str_in bad_word (text (reply_bad_request "Service Unavailable")))
     bad_words = true).
Proof.
  left. split; [reflexivity|].
  exists "text/xml; charset=UTF-8". split; [reflexivity | exact xml_is_not_json].
Defined.

Lemma unavailable_not_markup :
  etree_fromstring (text (reply_bad_request "Service Unavailable")) = inl plain_error.
Proof. vm_compute. reflexivity. Defined.

Lemma unparsable_error_body_witness :
  In (esearch_url, reply_bad_request "Service Unavailable")
     (replies (call_events "/esearch.fcgi" (Some search_args) false false
                 unavailable_machine)) /\
  etree_fromstring (text (reply_bad_request "Service Unavailable")) = inl plain_error /\
  outcome "/esearch.fcgi" (Some search_args) false false unavailable_machine
  = inl (EutilsNCBIError
           ("Error parsing response object from NCBI: " +:+ str_exn plain_error)).
Proof.
  split; [exact unavailable_reply|]. split; [exact unavailable_not_markup|].
  exact (unparsable_error_body "/esearch.fcgi" (Some search_args) false false
           unavailable_machine esearch_url (reply_bad_request "Service Unavailable")
           plain_error unavailable_reply unavailable_branch unavailable_not_markup).
Defined.

Lemma lowercase_reply :
  In (esearch_url, reply_ok lowercase_body)
     (replies (call_events "/esearch.fcgi" (Some search_args) false false
                 lowercase_machine)).
Proof. vm_compute. left. reflexivity. Defined.

Lemma lowercase_marker :
  existsb (fun bad_word => str_in bad_word (text (reply_ok lowercase_body))) bad_words
  = true.
Proof. vm_compute. reflexivity. Defined.

Lemma lowercase_parsed :
  etree_fromstring (text (reply_ok lowercase_body)) = inr lowercase_page.
Proof. vm_compute. reflexivity. Defined.

Lemma marker_without_error_element_witness :
  In (esearch_url, reply_ok lowercase_body)
     (replies (call_events "/esearch.fcgi" (Some search_args) false false
                 lowercase_machine)) /\
  ok (reply_ok lowercase_body) = true /\
  existsb (fun bad_word => str_in bad_word (text (reply_ok lowercase_body))) bad_words
  = true /\
  etree_fromstring (text (reply_ok lowercase_body)) = inr lowercase_page /\
  find "ERROR" lowercase_page = None /\
  outcome "/esearch.fcgi" (Some search_args) false false lowercase_machine
  = inl (EutilsNCBIError
           "Error parsing response object from NCBI: 'NoneType' object has no attribute 'text'").
Proof.
  split; [exact lowercase_reply|]. split; [reflexivity|]. split; [exact lowercase_marker|].
  split; [exact lowercase_parsed|]. split; [reflexivity|].
  exact (marker_without_error_element "/esearch.fcgi" (Some search_args) false false
           lowercase_machine esearch_url (reply_ok lowercase_body) lowercase_page
           lowercase_reply eq_refl lowercase_marker lowercase_parsed eq_refl).
Defined.

End MoreExamples.
